(** * ShadowScanner: the chi-square LSB estimator and its classifier

    A shallow embedding of [src/services/steganalysisService.ts] (the
    functions [erf], [chiSquareCdf] and [analyzeLSB]) and of the status
    classification of [src/App.tsx] ([handleAnalyzeClick]).

    Modelling choices.
    - [pixelData] (a [Uint8ClampedArray]) is a [list Z]; its bytes lie in
      0..255, but no theorem below needs that bound.
    - The two histograms are [list Z] of length 255, updated by index.
    - The pair-counting loops run in a small monad [M] that keeps a log of
      every index of [pixelData] that is read and that fails on a read
      outside the buffer, on a histogram update outside the array, and when
      the loop's fuel runs out.  JavaScript itself would not raise there
      (a read outside yields [undefined]); the theorems show that none of
      the three failures can happen, so model and code agree on every run.
    - JavaScript numbers are IEEE doubles.  The counts are integers far below
      2^53 and are exact; the chi-square statistic, [erf] and the probability
      are modelled over the real numbers [R], i.e. with exact arithmetic and
      the mathematical [exp] and [sqrt].  Rounding is outside this model.
    - A second model of the estimator, on binary64 numbers, computes what
      the code computes, digit for digit; it shows where rounding makes the
      code differ from the exact model: [erf 0] and the order of two
      nearly equal results. *)

From Stdlib Require Import PrimFloat.
From Stdlib Require Import ZArith Reals Lra Lia Psatz.
From stdpp Require Import base list strings.

Open Scope Z_scope.

(** ** The monad of the pair-counting loops *)

Inductive outcome (A : Type) : Type :=
| Ok (a : A)
| OutOfBounds (i : Z)
| BadCategory (c : Z)
| OutOfFuel.

Arguments Ok {A} a.
Arguments OutOfBounds {A} i.
Arguments BadCategory {A} c.
Arguments OutOfFuel {A}.

(** A computation takes the log of the buffer indices read so far and
    returns the extended log with its outcome. *)
Definition M (A : Type) : Type := list Z -> list Z * outcome A.

Definition ret {A : Type} (a : A) : M A := fun log => (log, Ok a).

Definition bind {A B : Type} (m : M A) (k : A -> M B) : M B :=
  fun log =>
    match m log with
    | (log', Ok a) => k a log'
    | (log', OutOfBounds i) => (log', OutOfBounds i)
    | (log', BadCategory c) => (log', BadCategory c)
    | (log', OutOfFuel) => (log', OutOfFuel)
    end.

Definition fail_fuel {A : Type} : M A := fun log => (log, OutOfFuel).

Notation "'let*' x ':=' m 'in' k" := (bind m (fun x => k))
  (at level 10, x name, m at level 100, k at level 200).

(** ** Data *)

Abbreviation histogram := (list Z).

(** [new Array(255).fill(0)] *)
Definition new_histogram : histogram := replicate 255 0.

(** [h[i]] for reading; an index outside the array gives [undefined] in the
    source, which fails the test [> 0] exactly as the count 0 does. *)
Definition get (h : histogram) (i : nat) : Z := default 0 (h !! i).

(** [pixelData[i]] *)
Definition read (pixelData : list Z) (i : Z) : M Z :=
  fun log =>
    (log ++ [i],
     if 0 <=? i
     then match pixelData !! Z.to_nat i with
          | Some v => Ok v
          | None => OutOfBounds i
          end
     else OutOfBounds i).

(** [h[c]++] *)
Definition incr (h : histogram) (c : Z) : M histogram :=
  fun log =>
    (log,
     if (0 <=? c) && (c <? Z.of_nat (length h))
     then Ok (alter Z.succ (Z.to_nat c) h)
     else BadCategory c).

(** ** The pair counter (lines 55-81 of the service) *)

(** [for (let i = i0; i < pixelData.length - 4; i += 8) body] *)
Fixpoint for_pairs {St : Type} (fuel : nat) (len i : Z)
    (body : Z -> St -> M St) (s : St) : M St :=
  if i <? len - 4 then
    match fuel with
    | O => fail_fuel
    | S fuel' => let* s' := body i s in for_pairs fuel' len (i + 8) body s'
    end
  else ret s.

(** The guard [p_i < 255 && p_i > 0]. *)
Definition interior (p_i : Z) : bool := (p_i <? 255) && (0 <? p_i).

(** Body of the first loop (lines 60-71). *)
Definition observed_body (pixelData : list Z) (i : Z)
    (observedFrequencies : histogram) : M histogram :=
  let* p_i := read pixelData i in
  let* p_i_plus_1 := read pixelData (i + 4) in
  if interior p_i then
    if p_i <? p_i_plus_1
    then incr observedFrequencies p_i
    else ret observedFrequencies
  else ret observedFrequencies.

(** Body of the second loop (lines 77-80). *)
Definition total_body (pixelData : list Z) (i : Z)
    (totalPairsPerCategory : histogram) : M histogram :=
  let* p_i := read pixelData i in
  if interior p_i
  then incr totalPairsPerCategory p_i
  else ret totalPairsPerCategory.

Definition observed_loop (pixelData : list Z) : M histogram :=
  for_pairs (length pixelData) (Z.of_nat (length pixelData)) 0
    (observed_body pixelData) new_histogram.

Definition total_loop (pixelData : list Z) : M histogram :=
  for_pairs (length pixelData) (Z.of_nat (length pixelData)) 0
    (total_body pixelData) new_histogram.

(** Both loops: [observedFrequencies] and [totalPairsPerCategory]. *)
Definition pairCounter (pixelData : list Z) : M (histogram * histogram) :=
  let* observedFrequencies := observed_loop pixelData in
  let* totalPairsPerCategory := total_loop pixelData in
  ret (observedFrequencies, totalPairsPerCategory).

(** ** The error function and the chi-square CDF (lines 8-34) *)

Open Scope R_scope.

Definition a1 : R := 0.254829592.
Definition a2 : R := -0.284496736.
Definition a3 : R := 1.421413741.
Definition a4 : R := -1.453152027.
Definition a5 : R := 1.061405429.
Definition p : R := 0.3275911.

(** The polynomial factor [(((((a5*t + a4)*t) + a3)*t + a2)*t + a1)*t]. *)
Definition poly (t : R) : R :=
  (((((a5 * t + a4) * t) + a3) * t + a2) * t + a1) * t.

Definition erf (x : R) : R :=
  let sign := if Rle_dec 0 x then 1 else -1 in
  let absX := Rabs x in
  let t := 1 / (1 + p * absX) in
  let y := 1 - poly t * exp (- absX * absX) in
  sign * y.

Definition chiSquareCdf (chiSquared : R) : R :=
  if Rlt_dec chiSquared 0 then 0 else erf (sqrt (chiSquared / 2)).

(** ** The estimator (lines 83-124) *)

(** One term of the sum (lines 91-97). *)
Definition chi_term (observed totalPairs : Z) : R :=
  let expectedFrequency := IZR totalPairs / 2 in
  let diff := IZR observed - expectedFrequency in
  (diff * diff) / expectedFrequency.

(** Body of the third loop (lines 87-100). *)
Definition chi_step (observedFrequencies totalPairsPerCategory : histogram)
    (chiSquared : R) (i : nat) : R :=
  let totalPairs := get totalPairsPerCategory i in
  if (0 <? totalPairs)%Z
  then chiSquared + chi_term (get observedFrequencies i) totalPairs
  else chiSquared.

(** [for (let i = 1; i < 255; i++)] *)
Definition chiSquared_of (observedFrequencies totalPairsPerCategory : histogram)
    : R :=
  fold_left (chi_step observedFrequencies totalPairsPerCategory) (seq 1 254) 0.

(** [observedFrequencies.filter((_, i) => totalPairsPerCategory[i] > 0).length] *)
Definition degreesOfFreedom (observedFrequencies totalPairsPerCategory : histogram)
    : nat :=
  length (filter (fun i => (0 < get totalPairsPerCategory i)%Z)
                 (seq 0 (length observedFrequencies))).

Definition estimate (observedFrequencies totalPairsPerCategory : histogram) : R :=
  let chiSquared := chiSquared_of observedFrequencies totalPairsPerCategory in
  let df := degreesOfFreedom observedFrequencies totalPairsPerCategory in
  if Nat.eqb df 0 then 0
  else
    let normalizedChi := chiSquared / INR df in
    chiSquareCdf normalizedChi.

Definition analyzeLSB (pixelData : list Z) : M R :=
  let* h := pairCounter pixelData in
  ret (estimate (fst h) (snd h)).

(** ** The classifier (App.tsx, lines 73-82) *)

Inductive ResultStatus : Type := Clean | Indeterminate | Suspicious.

Definition classify (probability : R) : ResultStatus :=
  if Rlt_dec 0.95 probability then Suspicious
  else if Rlt_dec 0.10 probability then Indeterminate
  else Clean.

Close Scope R_scope.

(** ** The estimator on IEEE doubles

    The same functions once more, on binary64 numbers with the rounding of
    every operation: the literals are rounded to the nearest double as
    JavaScript does, [+ - * /] and [Math.sqrt] are the IEEE operations.
    [Math.exp] is not code of this repository and ECMAScript leaves its
    accuracy to the engine; [Math_exp] follows V8's [ieee754::exp] (the
    fdlibm routine [e_exp.c]) branch by branch. *)

Set Warnings "-inexact-float".

Open Scope float_scope.

(** A count as a double; exact below 2^53. *)
Fixpoint pos2F (p : positive) : float :=
  match p with
  | xH => 1
  | xO q => 2 * pos2F q
  | xI q => 2 * pos2F q + 1
  end.

Definition Z2F (z : Z) : float :=
  match z with
  | Z0 => 0
  | Zpos p => pos2F p
  | Zneg p => - pos2F p
  end.

(** The cast [(int) v], which drops the fraction. *)
Fixpoint whole_part (fuel : nat) (v : float) (n : Z) : Z :=
  match fuel with
  | O => n
  | S fuel' => if v <? Z2F (n + 1) then n else whole_part fuel' v (n + 1)
  end.

Definition to_int (v : float) : Z :=
  if 0 <=? v then whole_part 1100 v 0 else (- whole_part 1100 (- v) 0)%Z.

(** [2^k], what [INSERT_WORDS] builds. *)
Definition pow2 (k : Z) : float :=
  match k with
  | Z0 => 1
  | Zpos p => Pos.iter (fun y => y * 2) 1 p
  | Zneg p => Pos.iter (fun y => y * 0.5) 1 p
  end.

(** [exp]: [x] is in the primary range, the result is scaled by [2^k]. *)
Definition exp_tail (x hi lo : float) (k : Z) : float :=
  let P1 := 1.66666666666666019037e-01 in
  let P2 := -2.77777777770155933842e-03 in
  let P3 := 6.61375632143793436117e-05 in
  let P4 := -1.65339022054652515390e-06 in
  let P5 := 4.13813679705723846039e-08 in
  let twom1000 := 9.33263618503218878990e-302 in
  let two1023 := 8.988465674311579539e307 in
  let t := x * x in
  let twopk := if (-1021 <=? k)%Z then pow2 k else pow2 (k + 1000) in
  let c := x - t * (P1 + t * (P2 + t * (P3 + t * (P4 + t * P5)))) in
  if (k =? 0)%Z then 1 - ((x * c) / (c - 2) - x)
  else
    let y := 1 - ((lo - (x * c) / (2 - c)) - hi) in
    if (-1021 <=? k)%Z then
      if (k =? 1024)%Z then y * 2 * two1023 else y * twopk
    else y * twopk * twom1000.

(** [exp]: the argument reduction.  The tests on the high word of [x] are
    written as comparisons of [|x|]: above [0.5 ln 2] is
    [0x1.62e43p-2 <= |x|], below [1.5 ln 2] is [|x| < 0x1.0a2b2p+0]. *)
Definition exp_reduce (x : float) : float :=
  let ln2HI := 6.93147180369123816490e-01 in
  let ln2LO := 1.90821492927058770002e-10 in
  let invln2 := 1.44269504088896338700e+00 in
  let E := 2.718281828459045 in
  let huge := 1.0e+300 in
  let xsb := x <? 0 in
  if 0x1.62e43p-2 <=? abs x then
    if abs x <? 0x1.0a2b2p+0 then
      if x =? 1 then E
      else
        let hi := x - (if xsb then - ln2HI else ln2HI) in
        let lo := if xsb then - ln2LO else ln2LO in
        exp_tail (hi - lo) hi lo (if xsb then -1 else 1)%Z
    else
      let k := to_int (invln2 * x + (if xsb then -0.5 else 0.5)) in
      let t := Z2F k in
      let hi := x - t * ln2HI in
      let lo := t * ln2LO in
      exp_tail (hi - lo) hi lo k
  else if abs x <? 0x1p-28 then
    if 1 <? huge + x then 1 + x else exp_tail x 0 0 0
  else exp_tail x 0 0 0.

(** [Math.exp] *)
Definition Math_exp (x : float) : float :=
  let o_threshold := 7.09782712893383973096e+02 in
  let u_threshold := -7.45133219101941108420e+02 in
  let huge := 1.0e+300 in
  let twom1000 := 9.33263618503218878990e-302 in
  if is_nan x then x + x
  else if is_infinity x then (if x <? 0 then 0 else x)
  else if 0x1.62e42p+9 <=? abs x then
    if o_threshold <? x then huge * huge
    else if x <? u_threshold then twom1000 * twom1000
    else exp_reduce x
  else exp_reduce x.

(** [erf] (lines 8-23) *)
Definition erf_f64 (x : float) : float :=
  let a1 := 0.254829592 in
  let a2 := -0.284496736 in
  let a3 := 1.421413741 in
  let a4 := -1.453152027 in
  let a5 := 1.061405429 in
  let p := 0.3275911 in
  let sign := if 0 <=? x then 1 else -1 in
  let absX := abs x in
  let t := 1.0 / (1.0 + p * absX) in
  let y :=
    1.0 - (((((a5 * t + a4) * t) + a3) * t + a2) * t + a1) * t
          * Math_exp (- absX * absX) in
  sign * y.

(** [chiSquareCdf] (lines 31-34) *)
Definition chiSquareCdf_f64 (chiSquared : float) : float :=
  if chiSquared <? 0 then 0
  else erf_f64 (PrimFloat.sqrt (chiSquared / 2)).

(** Body of the third loop (lines 87-100). *)
Definition chi_step_f64 (observedFrequencies totalPairsPerCategory : histogram)
    (chiSquared : float) (i : nat) : float :=
  let totalPairs := get totalPairsPerCategory i in
  if (0 <? totalPairs)%Z then
    let expectedFrequency := Z2F totalPairs / 2 in
    let observed := Z2F (get observedFrequencies i) in
    let diff := observed - expectedFrequency in
    let chiSquared_i := (diff * diff) / expectedFrequency in
    chiSquared + chiSquared_i
  else chiSquared.

Definition chiSquared_f64 (observedFrequencies totalPairsPerCategory : histogram)
    : float :=
  fold_left (chi_step_f64 observedFrequencies totalPairsPerCategory)
            (seq 1 254) 0.

(** [normalizedChi] (line 116) *)
Definition normalizedChi_f64 (observedFrequencies totalPairsPerCategory : histogram)
    : float :=
  chiSquared_f64 observedFrequencies totalPairsPerCategory
  / Z2F (Z.of_nat (degreesOfFreedom observedFrequencies totalPairsPerCategory)).

(** Lines 83-124. *)
Definition estimate_f64 (observedFrequencies totalPairsPerCategory : histogram)
    : float :=
  if Nat.eqb (degreesOfFreedom observedFrequencies totalPairsPerCategory) 0
  then 0
  else chiSquareCdf_f64
         (normalizedChi_f64 observedFrequencies totalPairsPerCategory).

Close Scope float_scope.

Definition analyzeLSB_f64 (pixelData : list Z) : M float :=
  let* h := pairCounter pixelData in
  ret (estimate_f64 (fst h) (snd h)).


(** [n] pairs of pixels with the first-channel values [a] and [b]. *)
Definition pixel_pairs (n : nat) (a b : Z) : list Z :=
  concat (replicate n [a; 0; 0; 255; b; 0; 0; 255]).



(** ** The handlers of the page (App.tsx, lines 16-97)

    The state of the component is a record of its five [useState] cells.
    Each handler is the state change that its synchronous part makes; what
    the browser does in between (reading the file, the timer, loading the
    image, drawing on the canvas) is given to the handler that runs
    afterwards as an argument. *)

Record File : Type := { name : string; type : string }.

Record AnalysisResult : Type :=
  { probability : R; message : string; status : ResultStatus }.

Record AppState : Type :=
  { selectedFile : option File;
    imagePreview : option string;
    isLoading : bool;
    result : option AnalysisResult;
    error : option string }.

(** [handleFileChange] (lines 16-35); [file] is [event.target.files?.[0]]. *)
Definition handleFileChange (file : option File) (st : AppState) : AppState :=
  match file with
  | None => st
  | Some f =>
      if negb (String.prefix "image/" (type f)) then
        {| selectedFile := None;
           imagePreview := None;
           isLoading := isLoading st;
           result := None;
           error := Some
             "Invalid file type. Please upload an image (e.g., PNG, BMP, JPEG)." |}
      else
        {| selectedFile := Some f;
           imagePreview := imagePreview st;
           isLoading := isLoading st;
           result := None;
           error := None |}
  end.

(** [reader.onloadend] (lines 30-32); [data] is [reader.result]. *)
Definition readerLoaded (data : string) (st : AppState) : AppState :=
  {| selectedFile := selectedFile st;
     imagePreview := Some data;
     isLoading := isLoading st;
     result := result st;
     error := error st |}.

(** [!imagePreview]: [null] and the empty string are falsy. *)
Definition no_preview (preview : option string) : bool :=
  match preview with
  | None => true
  | Some s => String.eqb s ""
  end.

(** [handleAnalyzeClick] up to the timer (lines 37-42). *)
Definition handleAnalyzeClick (st : AppState) : AppState :=
  match selectedFile st with
  | None => st
  | Some _ =>
      if no_preview (imagePreview st) then st
      else
        {| selectedFile := selectedFile st;
           imagePreview := imagePreview st;
           isLoading := true;
           result := None;
           error := None |}
  end.

(** The message and the status chosen for a probability (lines 70-83). *)
Definition verdict (p : R) : string * ResultStatus :=
  if Rlt_dec 0.95 p then
    ("Suspicious: High probability of hidden LSB data detected.", Suspicious)
  else if Rlt_dec 0.10 p then
    ("Indeterminate: Some statistical anomalies were found, but results are inconclusive.",
     Indeterminate)
  else
    ("Likely Clean: No significant statistical signs of LSB steganography found.",
     Clean).

Definition with_error (msg : string) (st : AppState) : AppState :=
  {| selectedFile := selectedFile st;
     imagePreview := imagePreview st;
     isLoading := false;
     result := result st;
     error := Some msg |}.

(** [image.onload] (lines 47-90). [canvas] and [context] tell whether
    [canvasRef.current] and [getContext] gave an object; [imageData] is the
    buffer that [getImageData] returned, or [None] when [getImageData]
    threw.  [drawImage], which stands before the [try], is taken not to
    throw.  A failed run of the model of [analyzeLSB] is sent to the
    [catch] branch. *)
Definition imageLoaded (canvas context : bool) (imageData : option (list Z))
    (st : AppState) : AppState :=
  if negb canvas then with_error "Canvas element not found." st
  else if negb context then with_error "Could not get canvas context." st
  else
    match imageData with
    | Some pixelData =>
        match analyzeLSB pixelData [] with
        | (_, Ok p) =>
            {| selectedFile := selectedFile st;
               imagePreview := imagePreview st;
               isLoading := false;
               result := Some {| probability := p;
                                 message := fst (verdict p);
                                 status := snd (verdict p) |};
               error := error st |}
        | _ =>
            with_error
              "An error occurred during analysis. The image might be protected by CORS policy if loaded from a URL."
              st
        end
    | None =>
        with_error
          "An error occurred during analysis. The image might be protected by CORS policy if loaded from a URL."
          st
    end.

(** [image.onerror] (lines 91-94). *)
Definition imageFailed (st : AppState) : AppState :=
  with_error "Could not load the image for analysis." st.

(** A text file, and a state with a preview and nothing else. *)
Definition text_file : File := {| name := "notes.txt"; type := "text/plain" |}.

Definition idle_state : AppState :=
  {| selectedFile := None;
     imagePreview := Some "data:image/png;base64,AAAA";
     isLoading := false;
     result := None;
     error := None |}.

(** ** What the loops compute, without the monad *)

(** The values taken by the loop variable [i]. *)
Fixpoint starts (fuel : nat) (len i : Z) : list Z :=
  match fuel with
  | O => []
  | S fuel' => if i <? len - 4 then i :: starts fuel' len (i + 8) else []
  end.

Definition pair_starts (pixelData : list Z) : list Z :=
  starts (length pixelData) (Z.of_nat (length pixelData)) 0.

(** Number of pairs that the loops scan. *)
Definition pairs_scanned (pixelData : list Z) : nat :=
  length (pair_starts pixelData).

Definition byte_at (pixelData : list Z) (i : Z) : Z :=
  default 0 (pixelData !! Z.to_nat i).

Definition bump (h : histogram) (c : Z) : histogram :=
  alter Z.succ (Z.to_nat c) h.

Definition observed_step (pixelData : list Z) (h : histogram) (i : Z)
    : histogram :=
  if interior (byte_at pixelData i) then
    if byte_at pixelData i <? byte_at pixelData (i + 4)
    then bump h (byte_at pixelData i)
    else h
  else h.

Definition total_step (pixelData : list Z) (h : histogram) (i : Z)
    : histogram :=
  if interior (byte_at pixelData i) then bump h (byte_at pixelData i) else h.

Definition observed_hist (pixelData : list Z) : histogram :=
  fold_left (observed_step pixelData) (pair_starts pixelData) new_histogram.

Definition total_hist (pixelData : list Z) : histogram :=
  fold_left (total_step pixelData) (pair_starts pixelData) new_histogram.

(** The reads of the first and of the second loop. *)
Definition observed_reads (pixelData : list Z) : list Z :=
  flat_map (fun i => [i; i + 4]) (pair_starts pixelData).

Definition total_reads (pixelData : list Z) : list Z :=
  flat_map (fun i => [i]) (pair_starts pixelData).

(** ** Notions used in the statements *)

(** Pairs whose first member has the value [c]. *)
Definition pairs_at (pixelData : list Z) (c : Z) (l : list Z) : nat :=
  length (filter (fun i => byte_at pixelData i = c) l).

(** Pairs whose first member has the value [c] and whose second member
    is greater. *)
Definition rising_at (pixelData : list Z) (c : Z) (l : list Z) : nat :=
  length (filter (fun i => byte_at pixelData i = c
                           /\ byte_at pixelData i < byte_at pixelData (i + 4))
                 l).

(** Two buffers that agree on the first byte of every 4-byte group. *)
Definition same_first_channel (buf1 buf2 : list Z) : Prop :=
  forall k : nat, buf1 !! (4 * k)%nat = buf2 !! (4 * k)%nat.

(** Every byte whose index is divisible by 4 equals [v]. *)
Definition uniform_channel (pixelData : list Z) (v : Z) : Prop :=
  forall k : nat,
    (4 * k < length pixelData)%nat -> pixelData !! (4 * k)%nat = Some v.

(** The first loop reads two bytes per iteration, first [pixelData[i]] and
    then [pixelData[i + 4]]: its log, two by two, lists the pairs. *)
Fixpoint pair_up (log : list Z) : list (Z * Z) :=
  match log with
  | i :: j :: log' => (i, j) :: pair_up log'
  | _ => []
  end.

(** Byte indices of the two members of each pair examined. *)
Definition pairs_examined (pixelData : list Z) : list (Z * Z) :=
  pair_up (fst (observed_loop pixelData [])).

(** Byte index of the first channel of pixel [k]. *)
Definition channel_index (k : Z) : Z := 4 * k.

(** Pairs whose first member lies strictly between 0 and 255, counted
    in a list of loop indices and in the whole buffer. *)
Definition interior_in (pixelData : list Z) (l : list Z) : nat :=
  length (filter (fun i => 0 < byte_at pixelData i < 255) l).

Definition interior_pairs (pixelData : list Z) : nat :=
  interior_in pixelData (pair_starts pixelData).

Definition Zsum (l : list Z) : Z := foldr Z.add 0 l.

(** The two histograms that [pairCounter] returns for a buffer. *)
Definition counts (pixelData : list Z) (obs tot : histogram) : Prop :=
  exists log, pairCounter pixelData [] = (log, Ok (obs, tot)).

(** What the loops use of every pair scanned, in order: the value of the
    first member and whether the second member is greater. *)
Definition pair_kinds (pixelData : list Z) : list (Z * bool) :=
  map (fun i => (byte_at pixelData i,
                 byte_at pixelData i <? byte_at pixelData (i + 4)))
      (pair_starts pixelData).

Open Scope R_scope.

(** Derivative of [poly]. *)
Definition poly' (t : R) : R :=
  5 * a5 * t ^ 4 + 4 * a4 * t ^ 3 + 3 * a3 * t ^ 2 + 2 * a2 * t + a1.

(** The argument [t] of the polynomial. *)
Definition tvar (x : R) : R := 1 / (1 + p * x).

(** Contribution of category [i] to [chiSquared]. *)
Definition term (obs tot : histogram) (i : nat) : R :=
  if (0 <? get tot i)%Z then chi_term (get obs i) (get tot i) else 0.

Fixpoint Rsum (l : list R) : R :=
  match l with
  | [] => 0
  | x :: l' => x + Rsum l'
  end.

Close Scope R_scope.

(** ** A first run *)

Example pairCounter_two_pixels :
  pairCounter [100; 7; 7; 7; 100; 9; 9; 9] [] =
  ([0; 4; 0], Ok (new_histogram, <[100%nat := 1]> new_histogram)).
Proof. vm_compute. reflexivity. Qed.

(** ** The loop in general *)

Section ForPairs.
Context {St : Type}.
Variable len : Z.
Variable body : Z -> St -> M St.
Variable step : St -> Z -> St.
Variable reads : Z -> list Z.
Variable Inv : St -> Prop.

Hypothesis body_run :
  forall i s log,
    0 <= i -> i < len - 4 -> Inv s ->
    body i s log = (log ++ reads i, Ok (step s i)) /\ Inv (step s i).

Lemma for_pairs_run (fuel : nat) :
  forall i s log,
    0 <= i -> len - 4 - i <= 8 * Z.of_nat fuel -> Inv s ->
    for_pairs fuel len i body s log =
      (log ++ flat_map reads (starts fuel len i),
       Ok (fold_left step (starts fuel len i) s))
    /\ Inv (fold_left step (starts fuel len i) s).
Proof.
  induction fuel as [|fuel IH]; intros i s log Hi Hfuel Hs.
  - simpl. destruct (Z.ltb_spec i (len - 4)); [lia|].
    unfold ret. rewrite app_nil_r. auto.
  - simpl. destruct (Z.ltb_spec i (len - 4)) as [Hlt|Hge].
    + destruct (body_run i s log Hi Hlt Hs) as [Hb Hinv].
      unfold bind. rewrite Hb.
      destruct (IH (i + 8) (step s i) (log ++ reads i)) as [Hrun Hfin];
        [lia | lia | exact Hinv |].
      rewrite Hrun. simpl. rewrite <- app_assoc. auto.
    + unfold ret. simpl. rewrite app_nil_r. auto.
Qed.
End ForPairs.

(** ** Facts about the loop variable *)

Lemma starts_bounds (fuel : nat) :
  forall len i j, 0 <= i -> j ∈ starts fuel len i ->
    i <= j /\ j < len - 4 /\ (j - i) mod 8 = 0.
Proof.
  induction fuel as [|fuel IH]; intros len i j Hi Hin; simpl in Hin.
  - inversion Hin.
  - destruct (Z.ltb_spec i (len - 4)) as [Hlt|Hge]; [|inversion Hin].
    apply elem_of_cons in Hin as [->|Hin].
    + rewrite Z.sub_diag. split; [lia | split; [lia | reflexivity]].
    + apply IH in Hin; [|lia]. destruct Hin as (H1 & H2 & H3).
      split; [lia | split; [lia |]].
      replace (j - i) with (j - (i + 8) + 1 * 8) by lia.
      rewrite Z.mod_add by lia. exact H3.
Qed.

Lemma pair_starts_bounds (pixelData : list Z) (j : Z) :
  j ∈ pair_starts pixelData ->
  0 <= j /\ j + 4 < Z.of_nat (length pixelData) /\ j mod 8 = 0.
Proof.
  intros Hin. apply starts_bounds in Hin; [|lia].
  rewrite Z.sub_0_r in Hin. lia.
Qed.

(** The loop variable takes the values 0, 8, 16, ... *)
Lemma starts_closed (fuel : nat) :
  forall len i,
    len - 4 - i <= 8 * Z.of_nat fuel ->
    starts fuel len i =
      map (fun k => i + 8 * Z.of_nat k)
          (seq 0 (Z.to_nat ((len + 3 - i) / 8))).
Proof.
  induction fuel as [|fuel IH]; intros len i Hfuel.
  - simpl. replace (Z.to_nat ((len + 3 - i) / 8)) with 0%nat; [reflexivity|].
    assert ((len + 3 - i) / 8 < 1) by (apply Z.div_lt_upper_bound; lia).
    lia.
  - simpl. destruct (Z.ltb_spec i (len - 4)) as [Hlt|Hge].
    + rewrite IH by lia.
      replace (len + 3 - i) with (len + 3 - (i + 8) + 1 * 8) by lia.
      rewrite Z.div_add by lia.
      assert (0 <= (len + 3 - (i + 8)) / 8) by (apply Z.div_pos; lia).
      rewrite Z2Nat.inj_add by lia.
      change (Z.to_nat 1) with 1%nat. rewrite Nat.add_1_r. simpl.
      f_equal; [lia|].
      rewrite <- seq_shift, map_map. apply map_ext. intros k. lia.
    + replace (Z.to_nat ((len + 3 - i) / 8)) with 0%nat; [reflexivity|].
      assert ((len + 3 - i) / 8 < 1) by (apply Z.div_lt_upper_bound; lia).
      lia.
Qed.

Lemma pair_starts_closed (pixelData : list Z) :
  pair_starts pixelData =
    map (fun k => 8 * Z.of_nat k)
        (seq 0 (Z.to_nat ((Z.of_nat (length pixelData) + 3) / 8))).
Proof.
  unfold pair_starts. rewrite starts_closed by lia.
  rewrite Z.sub_0_r. apply map_ext. intros k. lia.
Qed.

(** ** Running the two loops *)

Lemma read_in_bounds (pixelData : list Z) (i : Z) (log : list Z) :
  0 <= i < Z.of_nat (length pixelData) ->
  read pixelData i log = (log ++ [i], Ok (byte_at pixelData i)).
Proof.
  intros Hi. unfold read, byte_at.
  destruct (Z.leb_spec 0 i); [|lia].
  destruct (lookup_lt_is_Some_2 pixelData (Z.to_nat i)) as [v Hv]; [lia|].
  rewrite Hv. reflexivity.
Qed.

Lemma interior_spec (c : Z) : interior c = true <-> 0 < c < 255.
Proof. unfold interior. rewrite andb_true_iff, !Z.ltb_lt. lia. Qed.

Lemma incr_interior (h : histogram) (c : Z) (log : list Z) :
  interior c = true -> length h = 255%nat ->
  incr h c log = (log, Ok (bump h c)).
Proof.
  intros Hc Hlen. apply interior_spec in Hc. unfold incr, bump.
  rewrite Hlen.
  destruct (Z.leb_spec 0 c); [|lia].
  destruct (Z.ltb_spec c (Z.of_nat 255)); [|lia].
  reflexivity.
Qed.

Lemma length_bump (h : histogram) (c : Z) : length (bump h c) = length h.
Proof. unfold bump. apply length_alter. Qed.

Lemma observed_body_run (pixelData : list Z) (i : Z) (h : histogram)
    (log : list Z) :
  0 <= i -> i < Z.of_nat (length pixelData) - 4 -> length h = 255%nat ->
  observed_body pixelData i h log =
    (log ++ [i; i + 4], Ok (observed_step pixelData h i))
  /\ length (observed_step pixelData h i) = 255%nat.
Proof.
  intros Hi Hlt Hlen. unfold observed_body, observed_step, bind.
  rewrite read_in_bounds by lia.
  rewrite read_in_bounds by lia.
  rewrite <- app_assoc. simpl.
  destruct (interior (byte_at pixelData i)) eqn:Hint; [|auto].
  destruct (byte_at pixelData i <? byte_at pixelData (i + 4)); [|auto].
  rewrite incr_interior by assumption.
  rewrite length_bump. auto.
Qed.

Lemma total_body_run (pixelData : list Z) (i : Z) (h : histogram)
    (log : list Z) :
  0 <= i -> i < Z.of_nat (length pixelData) - 4 -> length h = 255%nat ->
  total_body pixelData i h log =
    (log ++ [i], Ok (total_step pixelData h i))
  /\ length (total_step pixelData h i) = 255%nat.
Proof.
  intros Hi Hlt Hlen. unfold total_body, total_step, bind.
  rewrite read_in_bounds by lia.
  destruct (interior (byte_at pixelData i)) eqn:Hint; [|auto].
  rewrite incr_interior by assumption.
  rewrite length_bump. auto.
Qed.

Lemma length_new_histogram : length new_histogram = 255%nat.
Proof. reflexivity. Qed.

Lemma observed_loop_run (pixelData : list Z) (log : list Z) :
  observed_loop pixelData log =
    (log ++ observed_reads pixelData, Ok (observed_hist pixelData))
  /\ length (observed_hist pixelData) = 255%nat.
Proof.
  unfold observed_loop, observed_reads, observed_hist, pair_starts.
  apply (for_pairs_run _ _ _ _ (fun h : histogram => length h = 255%nat)).
  - intros i s l. apply observed_body_run.
  - lia.
  - lia.
  - apply length_new_histogram.
Qed.

Lemma total_loop_run (pixelData : list Z) (log : list Z) :
  total_loop pixelData log =
    (log ++ total_reads pixelData, Ok (total_hist pixelData))
  /\ length (total_hist pixelData) = 255%nat.
Proof.
  unfold total_loop, total_reads, total_hist, pair_starts.
  apply (for_pairs_run _ _ _ _ (fun h : histogram => length h = 255%nat)).
  - intros i s l. apply total_body_run.
  - lia.
  - lia.
  - apply length_new_histogram.
Qed.

Lemma length_observed_hist (pixelData : list Z) :
  length (observed_hist pixelData) = 255%nat.
Proof. apply (observed_loop_run pixelData []). Qed.

Lemma length_total_hist (pixelData : list Z) :
  length (total_hist pixelData) = 255%nat.
Proof. apply (total_loop_run pixelData []). Qed.

Lemma pairCounter_run (pixelData : list Z) (log : list Z) :
  pairCounter pixelData log =
    (log ++ observed_reads pixelData ++ total_reads pixelData,
     Ok (observed_hist pixelData, total_hist pixelData)).
Proof.
  unfold pairCounter, bind.
  rewrite (proj1 (observed_loop_run pixelData log)).
  rewrite (proj1 (total_loop_run pixelData _)).
  rewrite <- app_assoc. reflexivity.
Qed.

Lemma analyzeLSB_run (pixelData : list Z) (log : list Z) :
  analyzeLSB pixelData log =
    (log ++ observed_reads pixelData ++ total_reads pixelData,
     Ok (estimate (observed_hist pixelData) (total_hist pixelData))).
Proof.
  unfold analyzeLSB, bind. rewrite pairCounter_run. reflexivity.
Qed.

(** ** The polynomial factor of [erf] *)

Open Scope R_scope.

Lemma poly'_pos (t : R) : 0 < poly' t.
Proof. unfold poly', a1, a2, a3, a4, a5. nra. Qed.

Lemma poly_derivable : derivable poly.
Proof. unfold poly. reg. Qed.

Lemma poly_derive (t : R) : derive_pt poly t (poly_derivable t) = poly' t.
Proof. unfold poly, poly'. reg. Qed.

Lemma poly_increasing (s t : R) : s <= t -> poly s <= poly t.
Proof.
  apply (nonneg_derivative_1 poly poly_derivable).
  intros x. rewrite poly_derive. left. apply poly'_pos.
Qed.

Lemma poly_0 : poly 0 = 0.
Proof. unfold poly. ring. Qed.

Lemma poly_1 : poly 1 = 0.999999999.
Proof. unfold poly, a1, a2, a3, a4, a5. lra. Qed.

Lemma poly_unit (t : R) : 0 <= t <= 1 -> 0 <= poly t <= 0.999999999.
Proof.
  intros [H0 H1]. rewrite <- poly_0 at 1. rewrite <- poly_1.
  split; apply poly_increasing; assumption.
Qed.

(** ** [erf] on the non-negative half line *)

Lemma p_pos : 0 < p.
Proof. unfold p. lra. Qed.

Lemma div1_le (d c : R) : 0 < d -> 1 <= c * d -> 1 / d <= c.
Proof.
  intros Hd Hc. apply Rmult_le_reg_r with d; [lra|].
  unfold Rdiv. rewrite Rmult_1_l, Rinv_l by lra. lra.
Qed.

Lemma tvar_unit (x : R) : 0 <= x -> 0 < tvar x <= 1.
Proof.
  intros Hx. unfold tvar. pose proof p_pos as Hp.
  assert (1 <= 1 + p * x) by nra.
  split.
  - apply Rdiv_lt_0_compat; lra.
  - apply div1_le; lra.
Qed.

Lemma tvar_decreasing (x y : R) : 0 <= x -> x <= y -> tvar y <= tvar x.
Proof.
  intros Hx Hxy. unfold tvar. pose proof p_pos as Hp.
  assert (1 <= 1 + p * x) by nra.
  assert (1 + p * x <= 1 + p * y) by nra.
  unfold Rdiv. rewrite !Rmult_1_l.
  apply Rinv_le_contravar; lra.
Qed.

Lemma erf_nonneg_arg (x : R) :
  0 <= x -> erf x = 1 - poly (tvar x) * exp (- x * x).
Proof.
  intros Hx. unfold erf, tvar.
  destruct (Rle_dec 0 x) as [_|Hn]; [|contradiction].
  rewrite Rabs_right by lra. ring.
Qed.

Lemma exp_le (x y : R) : x <= y -> exp x <= exp y.
Proof.
  intros [Hlt|Heq].
  - left. apply exp_increasing. exact Hlt.
  - rewrite Heq. right. reflexivity.
Qed.

Lemma exp_neg_square_unit (x : R) : 0 < exp (- x * x) <= 1.
Proof.
  split; [apply exp_pos|].
  rewrite <- exp_0. apply exp_le. nra.
Qed.

Lemma erf_range (x : R) : 0 <= x -> 0 <= erf x <= 1.
Proof.
  intros Hx. rewrite erf_nonneg_arg by assumption.
  pose proof (tvar_unit x Hx) as Ht.
  pose proof (poly_unit (tvar x)) as Hq.
  pose proof (exp_neg_square_unit x) as He.
  assert (0 <= poly (tvar x) <= 0.999999999) as Hq' by (apply Hq; lra).
  nra.
Qed.

Lemma erf_increasing (x y : R) : 0 <= x -> x <= y -> erf x <= erf y.
Proof.
  intros Hx Hxy. rewrite !erf_nonneg_arg by lra.
  pose proof (tvar_unit y ltac:(lra)) as Hty.
  pose proof (tvar_decreasing x y Hx Hxy) as Ht.
  pose proof (poly_increasing _ _ Ht) as Hq.
  assert (0 <= poly (tvar y)) as Hq0.
  { rewrite <- poly_0. apply poly_increasing. lra. }
  assert (exp (- y * y) <= exp (- x * x)) as He by (apply exp_le; nra).
  pose proof (exp_pos (- y * y)) as Hey.
  nra.
Qed.

(** [erf] at 0 is the rounding residue of the coefficients, not 0. *)
Lemma erf_0 : erf 0 = 0.000000001.
Proof.
  rewrite erf_nonneg_arg by lra. unfold tvar.
  replace (- 0 * 0) with 0 by ring. rewrite exp_0.
  replace (1 / (1 + p * 0)) with 1 by (field; lra).
  rewrite poly_1. lra.
Qed.

Lemma erf_half_lower (x : R) : 1 / 2 <= x -> 0.14 < erf x.
Proof.
  intros Hx.
  apply Rlt_le_trans with (erf (1 / 2)); [|apply erf_increasing; lra].
  rewrite erf_nonneg_arg by lra.
  pose proof (exp_neg_square_unit (1 / 2)) as He.
  assert (tvar (1 / 2) <= 0.86) as Ht.
  { unfold tvar, p. apply div1_le; lra. }
  pose proof (poly_increasing _ _ Ht) as Hq.
  assert (poly 0.86 < 0.86) as Hq86 by (unfold poly, a1, a2, a3, a4, a5; lra).
  assert (0 <= poly (tvar (1 / 2))) as Hq0.
  { rewrite <- poly_0. apply poly_increasing.
    pose proof (tvar_unit (1 / 2)). lra. }
  nra.
Qed.

(** ** The chi-square CDF *)

Lemma chiSquareCdf_range (x : R) : 0 <= chiSquareCdf x <= 1.
Proof.
  unfold chiSquareCdf. destruct (Rlt_dec x 0); [lra|].
  apply erf_range. apply sqrt_pos.
Qed.

Lemma chiSquareCdf_increasing (x y : R) :
  x <= y -> chiSquareCdf x <= chiSquareCdf y.
Proof.
  intros Hxy. unfold chiSquareCdf.
  destruct (Rlt_dec x 0) as [Hx|Hx], (Rlt_dec y 0) as [Hy|Hy]; try lra.
  - apply erf_range. apply sqrt_pos.
  - apply erf_increasing; [apply sqrt_pos|].
    apply sqrt_le_1_alt. lra.
Qed.

Close Scope R_scope.

(** ** The histograms as counts *)

Lemma get_new_histogram (c : nat) : get new_histogram c = 0.
Proof.
  unfold get.
  destruct (new_histogram !! c) as [x|] eqn:Hx; [|reflexivity].
  unfold new_histogram in Hx.
  apply lookup_replicate in Hx as [-> _]. reflexivity.
Qed.

Lemma get_bump (h : histogram) (a : Z) (c : nat) :
  interior a = true -> length h = 255%nat ->
  get (bump h a) c = get h c + (if decide (a = Z.of_nat c) then 1 else 0).
Proof.
  intros Ha Hlen. apply interior_spec in Ha. unfold get, bump.
  destruct (decide (a = Z.of_nat c)) as [->|Hne].
  - rewrite Nat2Z.id.
    destruct (lookup_lt_is_Some_2 h c) as [x Hx]; [lia|].
    rewrite list_lookup_alter_eq, Hx. simpl. lia.
  - rewrite list_lookup_alter_ne by lia. lia.
Qed.

Lemma fold_total_step (pixelData : list Z) (c : nat) (l : list Z) :
  forall h, length h = 255%nat ->
    get (fold_left (total_step pixelData) l h) c =
      get h c + (if interior (Z.of_nat c)
                 then Z.of_nat (pairs_at pixelData (Z.of_nat c) l) else 0).
Proof.
  unfold pairs_at.
  induction l as [|j l IH]; intros h Hlen; simpl.
  - destruct (interior (Z.of_nat c)); simpl; lia.
  - unfold total_step at 2.
    destruct (interior (byte_at pixelData j)) eqn:Hint.
    + rewrite IH by (rewrite length_bump; exact Hlen).
      rewrite get_bump by assumption. rewrite filter_cons.
      destruct (decide (byte_at pixelData j = Z.of_nat c)) as [Heq|Hne].
      * rewrite <- Heq, Hint. simpl length. lia.
      * destruct (interior (Z.of_nat c)); lia.
    + rewrite IH by exact Hlen. rewrite filter_cons.
      destruct (decide (byte_at pixelData j = Z.of_nat c)) as [Heq|Hne].
      * rewrite <- Heq, Hint. lia.
      * reflexivity.
Qed.

Lemma fold_observed_step (pixelData : list Z) (c : nat) (l : list Z) :
  forall h, length h = 255%nat ->
    get (fold_left (observed_step pixelData) l h) c =
      get h c + (if interior (Z.of_nat c)
                 then Z.of_nat (rising_at pixelData (Z.of_nat c) l) else 0).
Proof.
  unfold rising_at.
  induction l as [|j l IH]; intros h Hlen; simpl.
  - destruct (interior (Z.of_nat c)); simpl; lia.
  - unfold observed_step at 2. rewrite filter_cons.
    destruct (interior (byte_at pixelData j)) eqn:Hint.
    + destruct (Z.ltb_spec (byte_at pixelData j) (byte_at pixelData (j + 4)))
        as [Hlt|Hge].
      * rewrite IH by (rewrite length_bump; exact Hlen).
        rewrite get_bump by assumption.
        destruct (decide (byte_at pixelData j = Z.of_nat c)) as [Heq|Hne].
        -- rewrite decide_True by (split; assumption).
           rewrite <- Heq, Hint. simpl length. lia.
        -- rewrite decide_False by (intros [? _]; contradiction).
           destruct (interior (Z.of_nat c)); lia.
      * rewrite IH by exact Hlen.
        rewrite decide_False by (intros [_ ?]; lia). reflexivity.
    + rewrite IH by exact Hlen.
      destruct (decide (byte_at pixelData j = Z.of_nat c
                        /\ byte_at pixelData j < byte_at pixelData (j + 4)))
        as [[Heq _]|Hne].
      * rewrite <- Heq, Hint. lia.
      * reflexivity.
Qed.

(** [totalPairsPerCategory[c]] counts the pairs of category [c]. *)
Lemma total_hist_get (pixelData : list Z) (c : nat) :
  get (total_hist pixelData) c =
    if interior (Z.of_nat c)
    then Z.of_nat (pairs_at pixelData (Z.of_nat c) (pair_starts pixelData))
    else 0.
Proof.
  unfold total_hist.
  rewrite fold_total_step by apply length_new_histogram.
  rewrite get_new_histogram. lia.
Qed.

(** [observedFrequencies[c]] counts the rising pairs of category [c]. *)
Lemma observed_hist_get (pixelData : list Z) (c : nat) :
  get (observed_hist pixelData) c =
    if interior (Z.of_nat c)
    then Z.of_nat (rising_at pixelData (Z.of_nat c) (pair_starts pixelData))
    else 0.
Proof.
  unfold observed_hist.
  rewrite fold_observed_step by apply length_new_histogram.
  rewrite get_new_histogram. lia.
Qed.

(** ** The chi-square sum and the degrees of freedom *)

Open Scope R_scope.

Lemma fold_chi_step (obs tot : histogram) (l : list nat) :
  forall acc,
    fold_left (chi_step obs tot) l acc = acc + Rsum (map (term obs tot) l).
Proof.
  induction l as [|i l IH]; intros acc; simpl.
  - ring.
  - rewrite IH. unfold chi_step, term.
    destruct (0 <? get tot i)%Z; ring.
Qed.

Lemma chiSquared_of_sum (obs tot : histogram) :
  chiSquared_of obs tot = Rsum (map (term obs tot) (seq 1 254)).
Proof. unfold chiSquared_of. rewrite fold_chi_step. ring. Qed.

Lemma Rsum_le (f g : nat -> R) (l : list nat) :
  (forall i, f i <= g i) -> Rsum (map f l) <= Rsum (map g l).
Proof.
  intros Hfg. induction l as [|i l IH]; simpl; [lra|].
  pose proof (Hfg i). lra.
Qed.

(** A sum with a single non-zero term. *)
Lemma Rsum_single (f : nat -> R) (v : nat) (n : nat) :
  (forall i, i <> v -> f i = 0) ->
  forall a,
    Rsum (map f (seq a n)) =
      if decide (a <= v < a + n)%nat then f v else 0.
Proof.
  intros Hf. induction n as [|n IH]; intros a; simpl.
  - rewrite decide_False by lia. reflexivity.
  - rewrite IH. destruct (decide (a = v)) as [->|Hne].
    + rewrite decide_False by lia. rewrite decide_True by lia. ring.
    + rewrite (Hf a Hne).
      destruct (decide (S a <= v < S a + n)%nat).
      * rewrite decide_True by lia. ring.
      * rewrite decide_False by lia. ring.
Qed.

Close Scope R_scope.

Lemma filter_single (P : nat -> Prop) `{forall i, Decision (P i)}
    (v : nat) (n : nat) :
  (forall i, P i <-> i = v) ->
  forall a,
    length (filter P (seq a n)) =
      if decide (a <= v < a + n)%nat then 1%nat else 0%nat.
Proof.
  intros HP. induction n as [|n IH]; intros a; simpl.
  - rewrite decide_False by lia. reflexivity.
  - rewrite filter_cons. destruct (decide (P a)) as [Ha|Ha].
    + apply HP in Ha as ->. simpl. rewrite IH.
      rewrite decide_False by lia. rewrite decide_True by lia. reflexivity.
    + rewrite IH. assert (a <> v) by (intros ->; apply Ha, HP; reflexivity).
      destruct (decide (S a <= v < S a + n)%nat).
      * rewrite decide_True by lia. reflexivity.
      * rewrite decide_False by lia. reflexivity.
Qed.

Lemma filter_none (P : nat -> Prop) `{forall i, Decision (P i)}
    (l : list nat) :
  (forall i, ~ P i) -> filter P l = [].
Proof.
  intros HP. induction l as [|i l IH]; [reflexivity|].
  rewrite filter_cons, decide_False by apply HP. exact IH.
Qed.

(** No category with pairs: the estimator returns 0 (line 114). *)
Lemma estimate_no_pairs (obs tot : histogram) :
  degreesOfFreedom obs tot = 0%nat -> estimate obs tot = 0%R.
Proof. intros Hdf. unfold estimate. rewrite Hdf. reflexivity. Qed.

Lemma degreesOfFreedom_zeros (obs tot : histogram) :
  (forall i, get tot i = 0) -> degreesOfFreedom obs tot = 0%nat.
Proof.
  intros Htot. unfold degreesOfFreedom.
  rewrite filter_none; [reflexivity|].
  intros i. rewrite Htot. lia.
Qed.

Lemma estimate_range (obs tot : histogram) :
  (0 <= estimate obs tot <= 1)%R.
Proof.
  unfold estimate.
  destruct (Nat.eqb (degreesOfFreedom obs tot) 0); [lra|].
  apply chiSquareCdf_range.
Qed.

(** One category [v] holds all [n] pairs and none of them rises. *)
Lemma estimate_single (obs tot : histogram) (v : nat) (n : Z) :
  length obs = 255%nat -> (1 <= v <= 254)%nat -> 0 < n ->
  (forall i, get obs i = 0) ->
  get tot v = n -> (forall i, i <> v -> get tot i = 0) ->
  estimate obs tot = erf (sqrt (IZR n / 4)).
Proof.
  intros Hlen Hv Hn Hobs Htv Htot. unfold estimate.
  assert (degreesOfFreedom obs tot = 1%nat) as Hdf.
  { unfold degreesOfFreedom. rewrite Hlen.
    rewrite (filter_single _ v).
    - rewrite decide_True by lia. reflexivity.
    - intros i. split.
      + intros Hi. destruct (decide (i = v)) as [|Hne]; [assumption|].
        rewrite (Htot i Hne) in Hi. lia.
      + intros ->. lia. }
  rewrite Hdf. simpl Nat.eqb. cbv iota.
  rewrite chiSquared_of_sum, (Rsum_single _ v).
  - rewrite decide_True by lia.
    unfold term. rewrite Htv, Hobs.
    destruct (Z.ltb_spec 0 n); [|lia].
    assert (0 < IZR n)%R as HnR by (apply IZR_lt; assumption).
    unfold chiSquareCdf, chi_term.
    replace (((0 - IZR n / 2) * (0 - IZR n / 2) / (IZR n / 2)) / INR 1)%R
      with (IZR n / 2)%R by (simpl; field; lra).
    destruct (Rlt_dec (IZR n / 2) 0) as [Hneg|_]; [lra|].
    f_equal. f_equal. field.
  - intros i Hne. unfold term. rewrite (Htot i Hne). reflexivity.
Qed.

(** ** The classifier *)

Open Scope R_scope.

Lemma classify_spec (prob : R) :
  (classify prob = Suspicious <-> 0.95 < prob) /\
  (classify prob = Indeterminate <-> 0.10 < prob <= 0.95) /\
  (classify prob = Clean <-> prob <= 0.10).
Proof.
  unfold classify.
  destruct (Rlt_dec 0.95 prob) as [Hs|Hs];
    [|destruct (Rlt_dec 0.10 prob) as [Hi|Hi]];
    (split; [|split]); split; intros H;
    try reflexivity; try discriminate; lra.
Qed.

Lemma classify_zero : classify 0 = Clean.
Proof. apply classify_spec. lra. Qed.

(** C3. The classifier gives Suspicious exactly when the probability is above
    0.95, Indeterminate exactly when it is above 0.10 and at most 0.95, and
    Clean exactly when it is at most 0.10; the cut points belong to the lower
    band: 0.95 is Indeterminate and 0.10 is Clean, while 0.9501 is Suspicious
    and 0.1001 is Indeterminate. *)
Theorem classify_bands :
  (forall prob : R,
     (classify prob = Suspicious <-> 0.95 < prob) /\
     (classify prob = Indeterminate <-> 0.10 < prob <= 0.95) /\
     (classify prob = Clean <-> prob <= 0.10)) /\
  classify 0.95 = Indeterminate /\
  classify 0.9501 = Suspicious /\
  classify 0.10 = Clean /\
  classify 0.1001 = Indeterminate.
Proof.
  split; [exact classify_spec|].
  repeat split; apply classify_spec; lra.
Qed.

(** ** The error function at and around zero *)

Lemma erf_opposite (x : R) : x <> 0 -> erf (- x) = - erf x.
Proof.
  intros Hx. unfold erf. rewrite Rabs_Ropp.
  destruct (Rle_dec 0 x) as [Hp|Hn], (Rle_dec 0 (- x)) as [Hp'|Hn'];
    try lra; ring.
Qed.

(** C8, as the code has it. [erf (- x) = - erf x] for every [x] other than 0,
    and [erf 0] is 0.000000001, the amount by which the five coefficients
    fall short of 1. *)
Theorem erf_odd_except_zero (x : R) :
  x <> 0 -> erf (- x) = - erf x /\ erf 0 = 0.000000001.
Proof.
  intros Hx. split; [apply erf_opposite; exact Hx | exact erf_0].
Qed.

Lemma erf_odd_except_zero_witness :
  erf (- 1) = - erf 1 /\ erf 0 = 0.000000001.
Proof. apply (erf_odd_except_zero 1). lra. Defined.

(** C8, as stated, fails at 0: [erf 0] is not 0, and [erf (- 0)] is not
    [- erf 0]. *)
Lemma erf_zero_not_odd : erf 0 <> 0 /\ erf (- 0) <> - erf 0.
Proof.
  replace (- 0) with 0 by ring. rewrite erf_0. split; lra.
Qed.

Close Scope R_scope.

(** ** Totality, range and the unused channels *)

Lemma pair_starts_reads_in_bounds (pixelData : list Z) :
  Forall (fun i => 0 <= i < Z.of_nat (length pixelData))
         (observed_reads pixelData ++ total_reads pixelData).
Proof.
  apply Forall_app. unfold observed_reads, total_reads.
  split; apply Forall_flat_map, Forall_forall; intros j Hj;
    apply pair_starts_bounds in Hj; repeat constructor; lia.
Qed.

(** C10. For every buffer, of any length, [analyzeLSB] returns a probability:
    no read of [pixelData] falls outside the buffer, no histogram update
    falls outside the array, the loops end, and both histograms keep their
    255 entries, which the estimator then reads at the indices 0..254. *)
Theorem analyzeLSB_total (pixelData : list Z) :
  exists (log : list Z) (obs tot : histogram) (probability : R),
    pairCounter pixelData [] = (log, Ok (obs, tot)) /\
    analyzeLSB pixelData [] = (log, Ok probability) /\
    Forall (fun i => 0 <= i < Z.of_nat (length pixelData)) log /\
    length obs = 255%nat /\ length tot = 255%nat.
Proof.
  exists (observed_reads pixelData ++ total_reads pixelData).
  exists (observed_hist pixelData), (total_hist pixelData).
  exists (estimate (observed_hist pixelData) (total_hist pixelData)).
  split; [apply pairCounter_run|].
  split; [apply analyzeLSB_run|].
  split; [apply pair_starts_reads_in_bounds|].
  split; [apply length_observed_hist | apply length_total_hist].
Qed.

(** C7. For every buffer the probability that [analyzeLSB] returns lies in
    [0,1]; and for every non-negative normalized chi-square value [x],
    [erf (sqrt (x / 2))] lies in [0,1]. *)
Theorem probability_in_unit_interval (pixelData : list Z) :
  (exists (log : list Z) (probability : R),
     analyzeLSB pixelData [] = (log, Ok probability) /\
     (0 <= probability <= 1)%R) /\
  (forall x : R, (0 <= x)%R -> (0 <= erf (sqrt (x / 2)) <= 1)%R).
Proof.
  split.
  - exists (observed_reads pixelData ++ total_reads pixelData).
    exists (estimate (observed_hist pixelData) (total_hist pixelData)).
    split; [apply analyzeLSB_run | apply estimate_range].
  - intros x _. apply erf_range, sqrt_pos.
Qed.

Lemma fold_left_ext_in {A B : Type} (f g : A -> B -> A) (l : list B) :
  (forall a b, b ∈ l -> f a b = g a b) ->
  forall a, fold_left f l a = fold_left g l a.
Proof.
  induction l as [|b l IH]; intros Hfg a; simpl; [reflexivity|].
  rewrite Hfg by (apply elem_of_cons; left; reflexivity).
  apply IH. intros a' b' Hb'. apply Hfg. apply elem_of_cons. right. exact Hb'.
Qed.

Lemma same_first_channel_byte_at (buf1 buf2 : list Z) (i : Z) :
  same_first_channel buf1 buf2 -> 0 <= i -> i mod 4 = 0 ->
  byte_at buf1 i = byte_at buf2 i.
Proof.
  intros Hsame Hi Hmod. unfold byte_at.
  replace (Z.to_nat i) with (4 * Z.to_nat (i / 4))%nat.
  - rewrite Hsame. reflexivity.
  - apply Z.div_exact in Hmod; [|lia].
    assert (0 <= i / 4) by (apply Z.div_pos; lia). lia.
Qed.

(** C9. Two buffers of equal length that agree on every byte whose index is
    divisible by 4 give the same run of [analyzeLSB]: the same reads and
    the same probability. *)
Theorem other_channels_ignored (buf1 buf2 : list Z) (log : list Z) :
  length buf1 = length buf2 ->
  same_first_channel buf1 buf2 ->
  analyzeLSB buf1 log = analyzeLSB buf2 log.
Proof.
  intros Hlen Hsame. rewrite !analyzeLSB_run.
  assert (pair_starts buf1 = pair_starts buf2) as Hst.
  { unfold pair_starts. rewrite Hlen. reflexivity. }
  assert (forall j, j ∈ pair_starts buf2 ->
            byte_at buf1 j = byte_at buf2 j /\
            byte_at buf1 (j + 4) = byte_at buf2 (j + 4)) as Hbytes.
  { intros j Hj. apply pair_starts_bounds in Hj as (H0 & _ & H8).
    assert (j mod 4 = 0) as H4.
    { apply Z.div_exact in H8; [|lia]. rewrite H8.
      replace (8 * (j / 8)) with (2 * (j / 8) * 4) by lia.
      apply Z.mod_mul. lia. }
    split; apply same_first_channel_byte_at; try assumption; try lia.
    replace (j + 4) with (j + 1 * 4) by lia.
    rewrite Z.mod_add by lia. exact H4. }
  assert (observed_hist buf1 = observed_hist buf2) as Hobs.
  { unfold observed_hist. rewrite Hst. apply fold_left_ext_in.
    intros h j Hj. destruct (Hbytes j Hj) as [Ha Hb].
    unfold observed_step. rewrite Ha, Hb. reflexivity. }
  assert (total_hist buf1 = total_hist buf2) as Htot.
  { unfold total_hist. rewrite Hst. apply fold_left_ext_in.
    intros h j Hj. destruct (Hbytes j Hj) as [Ha _].
    unfold total_step. rewrite Ha. reflexivity. }
  unfold observed_reads, total_reads. rewrite Hst, Hobs, Htot. reflexivity.
Qed.

Lemma other_channels_ignored_witness :
  analyzeLSB [100; 1; 2; 3; 200; 4; 5; 6] [] =
  analyzeLSB [100; 9; 8; 7; 200; 6; 5; 4] [].
Proof.
  apply other_channels_ignored.
  - reflexivity.
  - intros k. destruct k as [|[|k]]; [reflexivity | reflexivity |].
    replace (4 * S (S k))%nat with (S (S (S (S (S (S (S (S (4 * k)))))))))
      by lia.
    reflexivity.
Defined.

(** ** Buffers without pairs *)

Lemma starts_short (fuel : nat) (len i : Z) :
  len - 4 <= i -> starts fuel len i = [].
Proof.
  intros Hle. destruct fuel as [|fuel]; simpl; [reflexivity|].
  destruct (Z.ltb_spec i (len - 4)); [lia | reflexivity].
Qed.

Lemma pair_starts_short (pixelData : list Z) :
  (length pixelData <= 4)%nat -> pair_starts pixelData = [].
Proof. intros Hlen. apply starts_short. lia. Qed.

(** C6. When no category has a pair (the count of categories with
    [totalPairs[i] > 0] is zero), and so for every buffer shorter than 4
    bytes, [analyzeLSB] returns exactly 0 and the classifier gives Clean. *)
Theorem no_pairs_probability_zero (pixelData : list Z) :
  (length pixelData < 4)%nat \/
  (exists log obs tot,
     pairCounter pixelData [] = (log, Ok (obs, tot)) /\
     degreesOfFreedom obs tot = 0%nat) ->
  exists log, analyzeLSB pixelData [] = (log, Ok 0%R) /\ classify 0 = Clean.
Proof.
  intros H. eexists. rewrite analyzeLSB_run.
  split; [|exact classify_zero].
  f_equal. f_equal. apply estimate_no_pairs.
  destruct H as [Hshort | (log & obs & tot & Hrun & Hdf)].
  - unfold observed_hist, total_hist.
    rewrite pair_starts_short by lia. simpl.
    apply degreesOfFreedom_zeros, get_new_histogram.
  - rewrite pairCounter_run in Hrun. congruence.
Qed.

Lemma no_pairs_probability_zero_witness :
  exists log,
    analyzeLSB [0; 0; 0; 0; 0; 0; 0; 0] [] = (log, Ok 0%R) /\
    classify 0 = Clean.
Proof.
  apply no_pairs_probability_zero. right.
  exists [0; 4; 0], new_histogram, new_histogram.
  split; vm_compute; reflexivity.
Defined.

(** ** Buffers with one value in the first channel *)

Lemma uniform_channel_byte_at (pixelData : list Z) (v : Z) (i : Z) :
  uniform_channel pixelData v ->
  0 <= i < Z.of_nat (length pixelData) -> i mod 4 = 0 ->
  byte_at pixelData i = v.
Proof.
  intros Hu Hi Hmod. unfold byte_at.
  apply Z.div_exact in Hmod; [|lia].
  assert (0 <= i / 4) by (apply Z.div_pos; lia).
  replace (Z.to_nat i) with (4 * Z.to_nat (i / 4))%nat by lia.
  rewrite Hu by lia. reflexivity.
Qed.

Lemma uniform_channel_pairs (pixelData : list Z) (v : Z) (j : Z) :
  uniform_channel pixelData v -> j ∈ pair_starts pixelData ->
  byte_at pixelData j = v /\ byte_at pixelData (j + 4) = v.
Proof.
  intros Hu Hj. apply pair_starts_bounds in Hj as (H0 & Hlt & H8).
  assert (j mod 4 = 0) as H4.
  { apply Z.div_exact in H8; [|lia]. rewrite H8.
    replace (8 * (j / 8)) with (2 * (j / 8) * 4) by lia.
    apply Z.mod_mul. lia. }
  split; apply (uniform_channel_byte_at _ v); try assumption; try lia.
  replace (j + 4) with (j + 1 * 4) by lia.
  rewrite Z.mod_add by lia. exact H4.
Qed.

Lemma pairs_at_uniform (pixelData : list Z) (v c : Z) (l : list Z) :
  (forall j, j ∈ l -> byte_at pixelData j = v) ->
  pairs_at pixelData c l = if decide (c = v) then length l else 0%nat.
Proof.
  unfold pairs_at. induction l as [|j l IH]; intros Hl.
  - destruct (decide (c = v)); reflexivity.
  - rewrite filter_cons.
    rewrite (Hl j) by (apply elem_of_cons; left; reflexivity).
    assert (forall j', j' ∈ l -> byte_at pixelData j' = v) as Hl'.
    { intros j' Hj'. apply Hl, elem_of_cons. right. exact Hj'. }
    specialize (IH Hl').
    destruct (decide (c = v)) as [->|Hne].
    + rewrite decide_True by reflexivity. simpl. rewrite IH. reflexivity.
    + rewrite decide_False by congruence. exact IH.
Qed.

Lemma rising_at_uniform (pixelData : list Z) (v c : Z) (l : list Z) :
  (forall j, j ∈ l ->
     byte_at pixelData j = v /\ byte_at pixelData (j + 4) = v) ->
  rising_at pixelData c l = 0%nat.
Proof.
  unfold rising_at. induction l as [|j l IH]; intros Hl; [reflexivity|].
  rewrite filter_cons.
  destruct (Hl j) as [Ha Hb]; [apply elem_of_cons; left; reflexivity|].
  rewrite decide_False by (rewrite Ha, Hb; lia).
  apply IH. intros j' Hj'. apply Hl, elem_of_cons. right. exact Hj'.
Qed.

Lemma sqrt_quarter_lower (x : R) : (1 / 4 <= x)%R -> (1 / 2 <= sqrt x)%R.
Proof.
  intros Hx. rewrite <- (sqrt_lem_1 (1 / 4) (1 / 2)) by lra.
  apply sqrt_le_1_alt. exact Hx.
Qed.

Lemma uniform_observed_get (pixelData : list Z) (v : Z) (c : nat) :
  uniform_channel pixelData v -> get (observed_hist pixelData) c = 0.
Proof.
  intros Hu. rewrite observed_hist_get.
  rewrite (rising_at_uniform _ v).
  - destruct (interior (Z.of_nat c)); reflexivity.
  - intros j Hj. apply uniform_channel_pairs; assumption.
Qed.

Lemma uniform_total_get (pixelData : list Z) (v : Z) (c : nat) :
  0 < v < 255 -> uniform_channel pixelData v ->
  get (total_hist pixelData) c =
    if decide (c = Z.to_nat v) then Z.of_nat (pairs_scanned pixelData) else 0.
Proof.
  intros Hv Hu. rewrite total_hist_get.
  rewrite (pairs_at_uniform _ v).
  - destruct (decide (c = Z.to_nat v)) as [->|Hne].
    + rewrite Z2Nat.id by lia.
      rewrite (proj2 (interior_spec v) Hv).
      rewrite decide_True by reflexivity. reflexivity.
    + rewrite decide_False by lia.
      destruct (interior (Z.of_nat c)); reflexivity.
  - intros j Hj. apply (uniform_channel_pairs _ v); assumption.
Qed.

(** C1, as the code has it. When every byte of the first channel equals one
    value [v] with [0 < v < 255], [totalPairs[v]] is the number of pairs
    scanned and [observedGreater[v]] is 0.  The probability is 0, and the
    status Clean, only when no pair is scanned; with [n >= 1] pairs the
    probability is [erf (sqrt (n / 4))], which is above 0.10, so the status
    is not Clean. *)
Theorem uniform_buffer_analysis (pixelData : list Z) (v : Z) :
  0 < v < 255 -> uniform_channel pixelData v ->
  exists log obs tot prob,
    pairCounter pixelData [] = (log, Ok (obs, tot)) /\
    analyzeLSB pixelData [] = (log, Ok prob) /\
    get tot (Z.to_nat v) = Z.of_nat (pairs_scanned pixelData) /\
    get obs (Z.to_nat v) = 0 /\
    (pairs_scanned pixelData = 0%nat ->
       prob = 0%R /\ classify prob = Clean) /\
    (pairs_scanned pixelData <> 0%nat ->
       prob = erf (sqrt (INR (pairs_scanned pixelData) / 4)) /\
       (0.10 < prob)%R /\ classify prob <> Clean).
Proof.
  intros Hv Hu.
  exists (observed_reads pixelData ++ total_reads pixelData).
  exists (observed_hist pixelData), (total_hist pixelData).
  exists (estimate (observed_hist pixelData) (total_hist pixelData)).
  pose proof (uniform_total_get pixelData v (Z.to_nat v) Hv Hu) as Htv.
  rewrite decide_True in Htv by reflexivity.
  split; [apply pairCounter_run|].
  split; [apply analyzeLSB_run|].
  split; [exact Htv|].
  split; [apply (uniform_observed_get _ v), Hu|].
  split.
  - intros Hn. rewrite estimate_no_pairs.
    + split; [reflexivity | exact classify_zero].
    + apply degreesOfFreedom_zeros. intros i.
      rewrite (uniform_total_get _ v) by assumption.
      rewrite Hn. destruct (decide (i = Z.to_nat v)); reflexivity.
  - intros Hn.
    rewrite (estimate_single _ _ (Z.to_nat v)
               (Z.of_nat (pairs_scanned pixelData))).
    + rewrite <- INR_IZR_INZ.
      assert (0.14 < erf (sqrt (INR (pairs_scanned pixelData) / 4)))%R as Hp.
      { apply erf_half_lower, sqrt_quarter_lower.
        assert (1 <= INR (pairs_scanned pixelData))%R.
        { change 1%R with (INR 1). apply le_INR. lia. }
        lra. }
      split; [reflexivity|]. split; [lra|].
      intros Hc. apply classify_spec in Hc. lra.
    + apply length_observed_hist.
    + lia.
    + lia.
    + intros i. apply (uniform_observed_get _ v), Hu.
    + exact Htv.
    + intros i Hne. rewrite (uniform_total_get _ v) by assumption.
      rewrite decide_False by exact Hne. reflexivity.
Qed.

Lemma uniform_100 : uniform_channel [100; 0; 0; 0; 100; 0; 0; 0] 100.
Proof.
  intros k Hk. simpl in Hk.
  destruct k as [|[|k]]; [reflexivity | reflexivity | lia].
Defined.

Lemma uniform_buffer_analysis_witness :
  exists log obs tot prob,
    pairCounter [100; 0; 0; 0; 100; 0; 0; 0] [] = (log, Ok (obs, tot)) /\
    analyzeLSB [100; 0; 0; 0; 100; 0; 0; 0] [] = (log, Ok prob) /\
    get tot 100%nat = 1 /\
    get obs 100%nat = 0 /\
    (1%nat = 0%nat -> prob = 0%R /\ classify prob = Clean) /\
    (1%nat <> 0%nat ->
       prob = erf (sqrt (INR 1 / 4)) /\
       (0.10 < prob)%R /\ classify prob <> Clean).
Proof.
  apply (uniform_buffer_analysis [100; 0; 0; 0; 100; 0; 0; 0] 100).
  - lia.
  - exact uniform_100.
Defined.

(** C1, as stated, fails: two pixels of value 100 form one pair, the
    probability is [erf (sqrt (1 / 4))], above 0.10, and the status is not
    Clean. *)
Lemma uniform_buffer_not_clean :
  uniform_channel [100; 0; 0; 0; 100; 0; 0; 0] 100 /\
  exists log prob,
    analyzeLSB [100; 0; 0; 0; 100; 0; 0; 0] [] = (log, Ok prob) /\
    (0.10 < prob)%R /\ classify prob <> Clean.
Proof.
  split; [exact uniform_100|].
  exists [0; 4; 0], (erf (sqrt (INR 1 / 4))).
  assert (0.14 < erf (sqrt (INR 1 / 4)))%R as Hp.
  { apply erf_half_lower, sqrt_quarter_lower. simpl. lra. }
  split; [|split; [lra|]].
  - rewrite analyzeLSB_run.
    change (observed_reads [100; 0; 0; 0; 100; 0; 0; 0]) with [0; 4].
    change (total_reads [100; 0; 0; 0; 100; 0; 0; 0]) with [0].
    simpl app. f_equal. f_equal.
    rewrite (estimate_single _ _ 100%nat 1).
    + reflexivity.
    + apply length_observed_hist.
    + lia.
    + lia.
    + intros i. apply (uniform_observed_get _ 100), uniform_100.
    + reflexivity.
    + intros i Hne.
      rewrite (uniform_total_get _ 100) by (try lia; exact uniform_100).
      change (Z.to_nat 100) with 100%nat.
      rewrite decide_False by exact Hne. reflexivity.
  - intros Hc. apply classify_spec in Hc. lra.
Qed.

(** ** The pairs that the first loop examines *)

Lemma pair_up_flat_map (l : list Z) :
  pair_up (flat_map (fun i => [i; i + 4]) l) = map (fun i => (i, i + 4)) l.
Proof.
  induction l as [|i l IH]; simpl; [reflexivity|].
  rewrite IH. reflexivity.
Qed.

Lemma pairs_examined_starts (pixelData : list Z) :
  pairs_examined pixelData = map (fun i => (i, i + 4)) (pair_starts pixelData).
Proof.
  unfold pairs_examined.
  rewrite (proj1 (observed_loop_run pixelData [])). simpl.
  apply pair_up_flat_map.
Qed.

Lemma pairs_scanned_closed (pixelData : list Z) :
  pairs_scanned pixelData =
    Z.to_nat ((Z.of_nat (length pixelData) + 3) / 8).
Proof.
  unfold pairs_scanned. rewrite pair_starts_closed.
  rewrite length_map, length_seq. reflexivity.
Qed.

(** C2, as the code has it. The pairs examined are, in order, the first
    channel of pixel [2 m] with the first channel of pixel [2 m + 1], for
    [m = 0, 1, ...]: the two members of a pair are neighbouring pixels, and
    the next pair starts two pixels further. *)
Theorem pairs_are_neighbours (pixelData : list Z) :
  pairs_examined pixelData =
    map (fun m : nat =>
           (channel_index (2 * Z.of_nat m),
            channel_index (2 * Z.of_nat m + 1)))
        (seq 0 (pairs_scanned pixelData)).
Proof.
  rewrite pairs_examined_starts, pairs_scanned_closed, pair_starts_closed.
  rewrite map_map. apply map_ext. intros m.
  unfold channel_index. f_equal; lia.
Qed.

(** C2, as stated, fails: with four pixels the pairs examined are pixels
    (0, 1) and (2, 3), and neither is a pixel [k] with the pixel [k + 2]. *)
Lemma pairs_not_two_apart :
  pairs_examined [10; 0; 0; 0; 20; 0; 0; 0; 30; 0; 0; 0; 40; 0; 0; 0] =
    [(channel_index 0, channel_index 1); (channel_index 2, channel_index 3)]
  /\ ~ Forall (fun ij => exists k : Z,
                 fst ij = channel_index k /\ snd ij = channel_index (k + 2))
         (pairs_examined
            [10; 0; 0; 0; 20; 0; 0; 0; 30; 0; 0; 0; 40; 0; 0; 0]).
Proof.
  split; [vm_compute; reflexivity|].
  intros HF. apply Forall_inv in HF. destruct HF as (k & Hi & Hj).
  vm_compute in Hi, Hj. unfold channel_index in *.
  destruct k; discriminate.
Qed.

(** ** The boundary categories *)

(** C5, as the code has it. For every buffer the entries at index 0 of both
    histograms stay 0.  The entries at index 254 are reachable, since the
    guard [p_i < 255] admits 254: [totalPairs[254]] counts the pairs whose
    first member is 254, and [observedGreater[254]] those of them whose
    second member is greater. *)
Theorem boundary_categories (pixelData : list Z) :
  exists log obs tot,
    pairCounter pixelData [] = (log, Ok (obs, tot)) /\
    get obs 0%nat = 0 /\
    get tot 0%nat = 0 /\
    get tot 254%nat =
      Z.of_nat (pairs_at pixelData 254 (pair_starts pixelData)) /\
    get obs 254%nat =
      Z.of_nat (rising_at pixelData 254 (pair_starts pixelData)).
Proof.
  exists (observed_reads pixelData ++ total_reads pixelData).
  exists (observed_hist pixelData), (total_hist pixelData).
  split; [apply pairCounter_run|].
  rewrite !observed_hist_get, !total_hist_get.
  repeat split; reflexivity.
Qed.

(** C5, as stated, fails at index 254: a pixel of value 254 followed by one
    of value 255 increments both histograms there. *)
Lemma category_254_incremented :
  pairCounter [254; 0; 0; 0; 255; 0; 0; 0] [] =
    ([0; 4; 0],
     Ok (<[254%nat := 1]> new_histogram, <[254%nat := 1]> new_histogram))
  /\ get (<[254%nat := 1]> new_histogram) 254%nat = 1.
Proof. split; vm_compute; reflexivity. Qed.

(** ** Monotonicity of the estimator *)

Open Scope R_scope.




Close Scope R_scope.




(** ** Further properties of the pair counter *)

Lemma rising_le_pairs (pixelData : list Z) (c : Z) (l : list Z) :
  (rising_at pixelData c l <= pairs_at pixelData c l)%nat.
Proof.
  unfold rising_at, pairs_at. induction l as [|j l IH]; [reflexivity|].
  rewrite !filter_cons.
  destruct (decide (byte_at pixelData j = c)) as [Heq|Hne].
  - destruct (decide (byte_at pixelData j = c
                      /\ byte_at pixelData j < byte_at pixelData (j + 4)));
      simpl; lia.
  - rewrite decide_False by (intros [? _]; contradiction). exact IH.
Qed.

Lemma pairs_at_le_length (pixelData : list Z) (c : Z) (l : list Z) :
  (pairs_at pixelData c l <= length l)%nat.
Proof. unfold pairs_at. apply length_filter. Qed.

(** X1. In every category the count of rising pairs is between 0 and the
    count of pairs, which is at most the number of pairs scanned. *)
Theorem observed_le_total (pixelData : list Z) :
  exists log obs tot,
    pairCounter pixelData [] = (log, Ok (obs, tot)) /\
    forall c : nat,
      0 <= get obs c <= get tot c /\
      get tot c <= Z.of_nat (pairs_scanned pixelData).
Proof.
  exists (observed_reads pixelData ++ total_reads pixelData).
  exists (observed_hist pixelData), (total_hist pixelData).
  split; [apply pairCounter_run|].
  intros c. rewrite observed_hist_get, total_hist_get.
  pose proof (rising_le_pairs pixelData (Z.of_nat c) (pair_starts pixelData)).
  pose proof (pairs_at_le_length pixelData (Z.of_nat c)
                (pair_starts pixelData)).
  unfold pairs_scanned.
  destruct (interior (Z.of_nat c)); lia.
Qed.

Lemma length_flat_map_const {A B : Type} (f : A -> list B) (n : nat)
    (l : list A) :
  (forall a, length (f a) = n) -> length (flat_map f l) = (n * length l)%nat.
Proof.
  intros Hf. induction l as [|a l IH]; simpl; [lia|].
  rewrite length_app, Hf, IH. lia.
Qed.

Lemma pairs_scanned_div (pixelData : list Z) :
  pairs_scanned pixelData = ((length pixelData + 3) / 8)%nat.
Proof.
  rewrite pairs_scanned_closed.
  rewrite <- (Nat2Z.id ((length pixelData + 3) / 8)).
  f_equal. rewrite Nat2Z.inj_div, Nat2Z.inj_add. reflexivity.
Qed.

(** X2. A run over a buffer of [len] bytes scans [(len + 3) / 8] pairs
    (half the pixel count, rounded down, for whole pixels) and reads the
    buffer three times per pair, two reads in the first loop and one in
    the second. *)
Theorem scan_size (pixelData : list Z) :
  exists log probability,
    analyzeLSB pixelData [] = (log, Ok probability) /\
    pairs_scanned pixelData = ((length pixelData + 3) / 8)%nat /\
    length log = (3 * pairs_scanned pixelData)%nat.
Proof.
  eexists. eexists. split; [apply analyzeLSB_run|].
  split; [apply pairs_scanned_div|].
  simpl. rewrite length_app. unfold observed_reads, total_reads.
  rewrite (length_flat_map_const _ 2) by reflexivity.
  rewrite (length_flat_map_const _ 1) by reflexivity.
  unfold pairs_scanned. lia.
Qed.

Lemma Zsum_plus {A : Type} (f g : A -> Z) (l : list A) :
  Zsum (map (fun a => f a + g a) l) = Zsum (map f l) + Zsum (map g l).
Proof.
  unfold Zsum. induction l as [|a l IH]; simpl; [reflexivity|].
  rewrite IH. lia.
Qed.

Lemma Zsum_zeros {A : Type} (l : list A) :
  Zsum (map (fun _ => 0) l) = 0.
Proof.
  unfold Zsum. induction l as [|a l IH]; simpl; [reflexivity|].
  rewrite IH. reflexivity.
Qed.

Lemma Zsum_unit (v : Z) (n : nat) :
  forall a : nat,
    Zsum (map (fun c : nat => if decide (v = Z.of_nat c) then 1 else 0)
              (seq a n)) =
      if decide (Z.of_nat a <= v < Z.of_nat a + Z.of_nat n) then 1 else 0.
Proof.
  unfold Zsum. induction n as [|n IH]; intros a; simpl.
  - rewrite decide_False by lia. reflexivity.
  - rewrite IH. destruct (decide (v = Z.of_nat a)) as [->|Hne].
    + rewrite decide_False by lia. rewrite decide_True by lia. reflexivity.
    + destruct (decide (Z.of_nat (S a) <= v < Z.of_nat (S a) + Z.of_nat n)).
      * rewrite decide_True by lia. reflexivity.
      * rewrite decide_False by lia. reflexivity.
Qed.

Lemma Zsum_pairs_at (pixelData : list Z) (l : list Z) :
  Zsum (map (fun c : nat => Z.of_nat (pairs_at pixelData (Z.of_nat c) l))
            (seq 1 254)) =
    Z.of_nat (interior_in pixelData l).
Proof.
  unfold interior_in. induction l as [|j l IH].
  - change (Zsum (map (fun _ : nat => 0) (seq 1 254)) = 0).
    apply Zsum_zeros.
  - rewrite filter_cons.
    transitivity
      (Zsum (map (fun c : nat =>
                    (if decide (byte_at pixelData j = Z.of_nat c)
                     then 1 else 0)
                    + Z.of_nat (pairs_at pixelData (Z.of_nat c) l))
                 (seq 1 254))).
    + f_equal. apply map_ext. intros c. unfold pairs_at.
      rewrite filter_cons.
      destruct (decide (byte_at pixelData j = Z.of_nat c)); simpl length; lia.
    + rewrite Zsum_plus, IH, Zsum_unit.
      destruct (decide (0 < byte_at pixelData j < 255)).
      * rewrite decide_True by lia. simpl length. lia.
      * rewrite decide_False by lia. lia.
Qed.

(** X3. The entries 1..254 of [totalPairsPerCategory] add up to the number
    of scanned pairs whose first member lies strictly between 0 and 255:
    every such pair is counted once, in the category of its first member,
    and no other pair is counted. *)
Theorem total_pairs_sum (pixelData : list Z) :
  exists log obs tot,
    pairCounter pixelData [] = (log, Ok (obs, tot)) /\
    Zsum (map (get tot) (seq 1 254)) = Z.of_nat (interior_pairs pixelData) /\
    (interior_pairs pixelData <= pairs_scanned pixelData)%nat.
Proof.
  exists (observed_reads pixelData ++ total_reads pixelData).
  exists (observed_hist pixelData), (total_hist pixelData).
  split; [apply pairCounter_run|]. split.
  - unfold interior_pairs. rewrite <- Zsum_pairs_at.
    f_equal. apply map_ext_in. intros c Hc.
    apply in_seq in Hc. rewrite total_hist_get.
    rewrite (proj2 (interior_spec (Z.of_nat c))) by lia. reflexivity.
  - apply length_filter.
Qed.

(** ** When the probability is zero *)

Lemma pairs_at_le_interior (pixelData : list Z) (c : Z) (l : list Z) :
  0 < c < 255 -> (pairs_at pixelData c l <= interior_in pixelData l)%nat.
Proof.
  intros Hc. unfold pairs_at, interior_in.
  induction l as [|j l IH]; [reflexivity|].
  rewrite !filter_cons.
  destruct (decide (byte_at pixelData j = c)) as [Heq|Hne].
  - rewrite decide_True by lia. simpl. lia.
  - destruct (decide (0 < byte_at pixelData j < 255)); simpl; lia.
Qed.

Lemma filter_length_zero {A : Type} (P : A -> Prop)
    `{forall a, Decision (P a)} (l : list A) (a : A) :
  length (filter P l) = 0%nat -> In a l -> ~ P a.
Proof.
  induction l as [|b l IH]; intros Hlen Hin; [destruct Hin|].
  rewrite filter_cons in Hlen.
  destruct (decide (P b)) as [Hb|Hb]; [discriminate|].
  destruct Hin as [->|Hin]; [exact Hb | apply IH; assumption].
Qed.

Lemma Zsum_nonpos {A : Type} (f : A -> Z) (l : list A) :
  (forall a, In a l -> f a <= 0) -> Zsum (map f l) <= 0.
Proof.
  unfold Zsum. induction l as [|a l IH]; intros Hf; simpl; [lia|].
  assert (f a <= 0) by (apply Hf; left; reflexivity).
  assert (foldr Z.add 0 (map f l) <= 0)
    by (apply IH; intros b Hb; apply Hf; right; exact Hb).
  lia.
Qed.

Lemma no_category_iff (pixelData : list Z) :
  degreesOfFreedom (observed_hist pixelData) (total_hist pixelData) = 0%nat
  <-> interior_pairs pixelData = 0%nat.
Proof.
  split.
  - intros Hdf. unfold degreesOfFreedom in Hdf.
    rewrite length_observed_hist in Hdf.
    assert (Zsum (map (get (total_hist pixelData)) (seq 1 254)) <= 0) as Hsum.
    { apply Zsum_nonpos. intros c Hc. apply in_seq in Hc.
      assert (~ 0 < get (total_hist pixelData) c); [|lia].
      apply (filter_length_zero _ _ c Hdf). apply in_seq. lia. }
    assert (Zsum (map (get (total_hist pixelData)) (seq 1 254))
            = Z.of_nat (interior_pairs pixelData)) as Heq.
    { unfold interior_pairs. rewrite <- Zsum_pairs_at.
      f_equal. apply map_ext_in. intros c Hc.
      apply in_seq in Hc. rewrite total_hist_get.
      rewrite (proj2 (interior_spec (Z.of_nat c))) by lia. reflexivity. }
    lia.
  - intros Hno. apply degreesOfFreedom_zeros. intros c.
    rewrite total_hist_get.
    destruct (interior (Z.of_nat c)) eqn:Hc; [|reflexivity].
    apply interior_spec in Hc.
    pose proof (pairs_at_le_interior pixelData (Z.of_nat c)
                  (pair_starts pixelData) Hc) as Hle.
    unfold interior_pairs in Hno. lia.
Qed.

Open Scope R_scope.

Lemma chi_term_nonneg (o t : Z) : (0 < t)%Z -> 0 <= chi_term o t.
Proof.
  intros Ht. unfold chi_term. cbv zeta.
  assert (0 < IZR t) as HtR by (apply IZR_lt; exact Ht).
  apply Rmult_le_pos; [apply Rle_0_sqr|].
  left. apply Rinv_0_lt_compat. lra.
Qed.

Lemma term_nonneg (obs tot : histogram) (i : nat) : 0 <= term obs tot i.
Proof.
  unfold term. destruct (Z.ltb_spec 0 (get tot i)); [|lra].
  apply chi_term_nonneg. assumption.
Qed.

Lemma Rsum_nonneg (f : nat -> R) (l : list nat) :
  (forall i, 0 <= f i) -> 0 <= Rsum (map f l).
Proof.
  intros Hf. induction l as [|i l IH]; simpl; [lra|].
  pose proof (Hf i). lra.
Qed.

Lemma chiSquared_nonneg (obs tot : histogram) : 0 <= chiSquared_of obs tot.
Proof.
  rewrite chiSquared_of_sum. apply Rsum_nonneg. apply term_nonneg.
Qed.

Lemma normalizedChi_nonneg (obs tot : histogram) :
  0 <= chiSquared_of obs tot / INR (degreesOfFreedom obs tot).
Proof.
  pose proof (chiSquared_nonneg obs tot) as Hchi.
  destruct (Nat.eq_dec (degreesOfFreedom obs tot) 0%nat) as [Heq|Hne].
  - rewrite Heq. simpl. unfold Rdiv. rewrite Rinv_0. lra.
  - apply Rmult_le_pos; [exact Hchi|].
    left. apply Rinv_0_lt_compat, lt_0_INR. lia.
Qed.

Lemma estimate_erf (obs tot : histogram) :
  degreesOfFreedom obs tot <> 0%nat ->
  estimate obs tot =
    erf (sqrt (chiSquared_of obs tot / INR (degreesOfFreedom obs tot) / 2)).
Proof.
  intros Hdf. unfold estimate.
  destruct (Nat.eqb_spec (degreesOfFreedom obs tot) 0) as [|_];
    [contradiction|].
  unfold chiSquareCdf. pose proof (normalizedChi_nonneg obs tot).
  destruct (Rlt_dec _ 0); [lra | reflexivity].
Qed.

Lemma erf_floor (x : R) : 0 <= x -> 0.000000001 <= erf x.
Proof.
  intros Hx. rewrite erf_nonneg_arg by assumption.
  pose proof (tvar_unit x Hx) as Ht.
  assert (0 <= poly (tvar x) <= 0.999999999) as Hq
    by (apply poly_unit; lra).
  pose proof (exp_neg_square_unit x) as He.
  nra.
Qed.

(** X4. The chi-square statistic is never negative, whatever the two
    histograms hold, so the branch [chiSquared < 0] of [chiSquareCdf] is
    never taken by the estimator: with at least one category the result is
    [erf (sqrt (normalizedChi / 2))]. *)
Theorem chi_square_nonnegative (obs tot : histogram) :
  0 <= chiSquared_of obs tot /\
  0 <= chiSquared_of obs tot / INR (degreesOfFreedom obs tot) /\
  (degreesOfFreedom obs tot <> 0%nat ->
   estimate obs tot =
     erf (sqrt (chiSquared_of obs tot / INR (degreesOfFreedom obs tot) / 2))).
Proof.
  split; [apply chiSquared_nonneg|].
  split; [apply normalizedChi_nonneg | apply estimate_erf].
Qed.

Lemma estimate_floor (obs tot : histogram) :
  degreesOfFreedom obs tot <> 0%nat -> 0.000000001 <= estimate obs tot.
Proof.
  intros Hdf. rewrite estimate_erf by assumption.
  apply erf_floor, sqrt_pos.
Qed.

Close Scope R_scope.

(** X5. [analyzeLSB] returns exactly 0 if and only if no scanned pair has a
    first member strictly between 0 and 255; with such a pair the
    probability is at least 0.0000000009.  (The least value is
    0.000000001 in exact arithmetic and 9.9999997e-10 in doubles.) *)
Theorem zero_iff_no_interior_pair (pixelData : list Z) :
  exists log probability,
    analyzeLSB pixelData [] = (log, Ok probability) /\
    (probability = 0%R <-> interior_pairs pixelData = 0%nat) /\
    (interior_pairs pixelData <> 0%nat -> (0.0000000009 <= probability)%R).
Proof.
  eexists. eexists. split; [apply analyzeLSB_run|].
  pose proof (no_category_iff pixelData) as Hiff.
  split; [split|].
  - intros Hzero. apply Hiff.
    destruct (Nat.eq_dec
                (degreesOfFreedom (observed_hist pixelData)
                   (total_hist pixelData)) 0%nat) as [|Hne]; [assumption|].
    pose proof (estimate_floor _ _ Hne). lra.
  - intros Hno. apply estimate_no_pairs, Hiff, Hno.
  - intros Hsome.
    assert (degreesOfFreedom (observed_hist pixelData)
              (total_hist pixelData) <> 0%nat) as Hdf
      by (intros Hdf; apply Hsome, Hiff, Hdf).
    pose proof (estimate_floor _ _ Hdf). lra.
Qed.

(** ** [erf] on the whole line *)

Open Scope R_scope.

Lemma erf_neg_arg (x : R) : x < 0 -> erf x = - erf (- x).
Proof.
  intros Hx. rewrite <- (erf_opposite (- x)) by lra.
  rewrite Ropp_involutive. reflexivity.
Qed.

Lemma erf_ceiling (x : R) : x < 0 -> -1 <= erf x <= -0.000000001.
Proof.
  intros Hx. rewrite erf_neg_arg by assumption.
  pose proof (erf_floor (- x) ltac:(lra)).
  pose proof (erf_range (- x) ltac:(lra)).
  lra.
Qed.

(** X6. [erf] stays within [-1, 1], is never 0 and has the sign of its
    argument, 0 counting as positive: it is at least 0.0000000009 from 0
    on and at most -0.0000000009 below 0.  (At 0 it is 0.000000001 in
    exact arithmetic and 9.9999997e-10 in doubles.) *)
Theorem erf_sign_bounded :
  (forall x : R, -1 <= erf x <= 1) /\
  (forall x : R, 0 <= x -> 0.0000000009 <= erf x) /\
  (forall x : R, x < 0 -> erf x <= -0.0000000009).
Proof.
  split; [|split].
  - intros x. destruct (Rle_dec 0 x) as [Hx|Hx].
    + pose proof (erf_range x Hx). lra.
    + pose proof (erf_ceiling x ltac:(lra)). lra.
  - intros x Hx. pose proof (erf_floor x Hx). lra.
  - intros x Hx. pose proof (erf_ceiling x Hx). lra.
Qed.

(** ** Bounds on [exp] *)

Lemma exp_double (a : R) : exp (2 * a) = exp a * exp a.
Proof. replace (2 * a) with (a + a) by ring. apply exp_plus. Qed.

Lemma exp_half_lower (a b c : R) :
  0 <= b -> b <= exp (a / 2) -> c <= b * b -> c <= exp a.
Proof.
  intros Hb Hba Hc. replace a with (2 * (a / 2)) by field.
  rewrite exp_double. nra.
Qed.

Lemma exp_2_lower : 6.95 <= exp 2.
Proof.
  assert (1.0625 <= exp (2 / 2 / 2 / 2 / 2 / 2)) as H0.
  { pose proof (exp_ineq1_le (2 / 2 / 2 / 2 / 2 / 2)). lra. }
  assert (1.1289 <= exp (2 / 2 / 2 / 2 / 2)) as H1
    by (apply (exp_half_lower _ 1.0625); [lra | exact H0 | lra]).
  assert (1.2744 <= exp (2 / 2 / 2 / 2)) as H2
    by (apply (exp_half_lower _ 1.1289); [lra | exact H1 | lra]).
  assert (1.624 <= exp (2 / 2 / 2)) as H3
    by (apply (exp_half_lower _ 1.2744); [lra | exact H2 | lra]).
  assert (2.637 <= exp (2 / 2)) as H4
    by (apply (exp_half_lower _ 1.624); [lra | exact H3 | lra]).
  apply (exp_half_lower _ 2.637); [lra | exact H4 | lra].
Qed.

Lemma exp_neg_2_upper (y : R) : 2 <= y -> exp (- y) <= 0.144.
Proof.
  intros Hy. rewrite exp_Ropp.
  pose proof exp_2_lower as H2. pose proof (exp_le 2 y Hy) as Hle.
  replace 0.144 with (/ (/ 0.144)) by (field; lra).
  apply Rinv_le_contravar; lra.
Qed.

Lemma exp_neg_7_4_lower : 0.1565 <= exp (- (7 / 4)).
Proof.
  assert (0.890625 <= exp (- (7 / 4) / 2 / 2 / 2 / 2)) as H0.
  { pose proof (exp_ineq1_le (- (7 / 4) / 2 / 2 / 2 / 2)). lra. }
  assert (0.7932 <= exp (- (7 / 4) / 2 / 2 / 2)) as H1
    by (apply (exp_half_lower _ 0.890625); [lra | exact H0 | lra]).
  assert (0.6291 <= exp (- (7 / 4) / 2 / 2)) as H2
    by (apply (exp_half_lower _ 0.7932); [lra | exact H1 | lra]).
  assert (0.3957 <= exp (- (7 / 4) / 2)) as H3
    by (apply (exp_half_lower _ 0.6291); [lra | exact H2 | lra]).
  apply (exp_half_lower _ 0.3957); [lra | exact H3 | lra].
Qed.

(** ** Where [erf] crosses the classifier's cut points *)

Lemma div1_ge (d c : R) : 0 < d -> c * d <= 1 -> c <= 1 / d.
Proof.
  intros Hd Hc. apply Rmult_le_reg_r with d; [lra|].
  unfold Rdiv. rewrite Rmult_1_l, Rinv_l by lra. lra.
Qed.

Lemma erf_above_095 (x : R) : 0 <= x -> 2 <= x * x -> 0.95 < erf x.
Proof.
  intros Hx Hxx. rewrite erf_nonneg_arg by assumption.
  assert (1.414 <= x) as Hlow by nra.
  assert (tvar x <= 0.6835) as Ht.
  { unfold tvar, p. apply div1_le; nra. }
  pose proof (poly_increasing _ _ Ht) as Hq.
  assert (poly 0.6835 <= 0.3364) as Hq0
    by (unfold poly, a1, a2, a3, a4, a5; lra).
  assert (0 <= poly (tvar x)) as Hq1.
  { apply poly_unit. pose proof (tvar_unit x Hx). lra. }
  assert (exp (- x * x) <= 0.144) as He.
  { replace (- x * x) with (- (x * x)) by ring.
    apply exp_neg_2_upper. exact Hxx. }
  pose proof (exp_pos (- x * x)) as Hpos.
  nra.
Qed.

Lemma erf_at_most_095 (x : R) : 0 <= x -> x * x <= 7 / 4 -> erf x <= 0.95.
Proof.
  intros Hx Hxx. rewrite erf_nonneg_arg by assumption.
  assert (x <= 1.323) as Hup by nra.
  assert (0.6976 <= tvar x) as Ht.
  { unfold tvar, p. apply div1_ge; nra. }
  pose proof (poly_increasing _ _ Ht) as Hq.
  assert (0.353 <= poly 0.6976) as Hq0
    by (unfold poly, a1, a2, a3, a4, a5; lra).
  assert (0.1565 <= exp (- x * x)) as He.
  { apply Rle_trans with (exp (- (7 / 4))); [exact exp_neg_7_4_lower|].
    apply exp_le. lra. }
  nra.
Qed.

Lemma erf_at_most_010 (x : R) :
  0 <= x -> x * x <= 0.005 -> erf x <= 0.10.
Proof.
  intros Hx Hxx. rewrite erf_nonneg_arg by assumption.
  assert (x <= 0.0708) as Hup by nra.
  assert (0.977 <= tvar x) as Ht.
  { unfold tvar, p. apply div1_ge; nra. }
  pose proof (poly_increasing _ _ Ht) as Hq.
  assert (0.9238 <= poly 0.977) as Hq0
    by (unfold poly, a1, a2, a3, a4, a5; lra).
  assert (0.995 <= exp (- x * x)) as He.
  { pose proof (exp_ineq1_le (- x * x)). lra. }
  nra.
Qed.

(** X7. From 0 on, [erf x] is at least [1 - 1 / (1 + x * x)] and at most 1,
    so it tends to 1 as [x] grows. *)
Theorem erf_tends_to_one (x : R) :
  0 <= x -> 1 - 1 / (1 + x * x) <= erf x <= 1.
Proof.
  intros Hx. split; [|apply erf_range; assumption].
  rewrite erf_nonneg_arg by assumption.
  assert (0 <= poly (tvar x) <= 0.999999999) as Hq.
  { apply poly_unit. pose proof (tvar_unit x Hx). lra. }
  assert (exp (- x * x) <= 1 / (1 + x * x)) as He.
  { replace (- x * x) with (- (x * x)) by ring. rewrite exp_Ropp.
    unfold Rdiv. rewrite Rmult_1_l.
    pose proof (exp_ineq1_le (x * x)).
    apply Rinv_le_contravar; nra. }
  pose proof (exp_pos (- x * x)). nra.
Qed.

Lemma erf_tends_to_one_witness :
  1 - 1 / (1 + 3 * 3) <= erf 3 <= 1.
Proof. apply (erf_tends_to_one 3). lra. Defined.

Close Scope R_scope.

(** ** From the normalized statistic to the status *)

Open Scope R_scope.

Lemma sqrt_half_square (c : R) : 0 <= c -> sqrt (c / 2) * sqrt (c / 2) = c / 2.
Proof. intros Hc. apply sqrt_sqrt. lra. Qed.

(** X8. With at least one category, a normalized chi-square value of 4 or
    more gives a probability above 0.95 and the status Suspicious. *)
Theorem suspicious_from_four (obs tot : histogram) :
  degreesOfFreedom obs tot <> 0%nat ->
  4 <= chiSquared_of obs tot / INR (degreesOfFreedom obs tot) ->
  0.95 < estimate obs tot /\ classify (estimate obs tot) = Suspicious.
Proof.
  intros Hdf Hc. rewrite estimate_erf by assumption.
  pose proof (normalizedChi_nonneg obs tot) as Hn.
  pose proof (sqrt_half_square _ Hn) as Hsq.
  assert (0.95 < erf (sqrt (chiSquared_of obs tot
                              / INR (degreesOfFreedom obs tot) / 2))) as Hp.
  { apply erf_above_095; [apply sqrt_pos | lra]. }
  split; [exact Hp | apply classify_spec; exact Hp].
Qed.

(** X9. With at least one category, a normalized chi-square value of at
    most 0.01 gives a probability of at most 0.10 and the status Clean. *)
Theorem clean_up_to_hundredth (obs tot : histogram) :
  degreesOfFreedom obs tot <> 0%nat ->
  chiSquared_of obs tot / INR (degreesOfFreedom obs tot) <= 0.01 ->
  estimate obs tot <= 0.10 /\ classify (estimate obs tot) = Clean.
Proof.
  intros Hdf Hc. rewrite estimate_erf by assumption.
  pose proof (normalizedChi_nonneg obs tot) as Hn.
  pose proof (sqrt_half_square _ Hn) as Hsq.
  assert (erf (sqrt (chiSquared_of obs tot
                       / INR (degreesOfFreedom obs tot) / 2)) <= 0.10) as Hp.
  { apply erf_at_most_010; [apply sqrt_pos | lra]. }
  split; [exact Hp | apply classify_spec; exact Hp].
Qed.

Lemma Rsum_zero (f : nat -> R) (l : list nat) :
  (forall i, f i = 0) -> Rsum (map f l) = 0.
Proof.
  intros Hf. induction l as [|i l IH]; simpl; [reflexivity|].
  rewrite Hf, IH. ring.
Qed.

Lemma chi_term_balanced (o : Z) : (0 < o)%Z -> chi_term o (2 * o) = 0.
Proof.
  intros Ho. unfold chi_term. rewrite mult_IZR.
  assert (0 < IZR o) by (apply IZR_lt; exact Ho).
  field. lra.
Qed.

Lemma chiSquared_balanced (obs tot : histogram) :
  (forall i : nat, get tot i = (2 * get obs i)%Z) ->
  chiSquared_of obs tot = 0.
Proof.
  intros Hbal. rewrite chiSquared_of_sum. apply Rsum_zero. intros i.
  unfold term. rewrite Hbal.
  destruct (Z.ltb_spec 0 (2 * get obs i)); [|reflexivity].
  apply chi_term_balanced. lia.
Qed.

(** X10. When in every category exactly half of the pairs rise
    ([totalPairs[i] = 2 * observedGreater[i]]), the chi-square statistic
    is 0, the probability is 0 when no category has a pair and otherwise
    between 0.0000000009 and 0.0000000011, and the status is Clean.  (The
    value is [erf 0]: 0.000000001 in exact arithmetic, 9.9999997e-10 in
    doubles.) *)
Theorem balanced_is_clean (obs tot : histogram) :
  (forall i : nat, get tot i = (2 * get obs i)%Z) ->
  chiSquared_of obs tot = 0 /\
  (degreesOfFreedom obs tot = 0%nat -> estimate obs tot = 0) /\
  (degreesOfFreedom obs tot <> 0%nat ->
   0.0000000009 <= estimate obs tot <= 0.0000000011) /\
  classify (estimate obs tot) = Clean.
Proof.
  intros Hbal.
  pose proof (chiSquared_balanced obs tot Hbal) as Hchi.
  assert (degreesOfFreedom obs tot <> 0%nat ->
          estimate obs tot = 0.000000001) as Hest.
  { intros Hdf. rewrite estimate_erf by assumption. rewrite Hchi.
    replace (0 / INR (degreesOfFreedom obs tot) / 2) with 0
      by (unfold Rdiv; ring).
    rewrite sqrt_0. apply erf_0. }
  split; [exact Hchi|].
  split; [apply estimate_no_pairs|].
  split.
  - intros Hdf. rewrite (Hest Hdf). lra.
  - apply classify_spec.
    destruct (Nat.eq_dec (degreesOfFreedom obs tot) 0%nat) as [Hdf|Hdf].
    + rewrite estimate_no_pairs by exact Hdf. lra.
    + rewrite (Hest Hdf). lra.
Qed.

Close Scope R_scope.

Lemma get_insert_zeros (v : nat) (n : Z) (i : nat) :
  (v < 255)%nat ->
  get (<[v := n]> new_histogram) i = if decide (i = v) then n else 0.
Proof.
  intros Hv. unfold get. destruct (decide (i = v)) as [->|Hne].
  - rewrite list_lookup_insert_eq by (rewrite length_new_histogram; exact Hv).
    reflexivity.
  - rewrite list_lookup_insert_ne by congruence. apply get_new_histogram.
Qed.

Lemma balanced_example (i : nat) :
  get (<[1%nat := 4]> new_histogram) i
  = 2 * get (<[1%nat := 2]> new_histogram) i.
Proof.
  rewrite !get_insert_zeros by lia.
  destruct (decide (i = 1%nat)); reflexivity.
Defined.

Lemma balanced_is_clean_witness :
  chiSquared_of (<[1%nat := 2%Z]> new_histogram) (<[1%nat := 4%Z]> new_histogram)
    = 0%R /\
  (degreesOfFreedom (<[1%nat := 2%Z]> new_histogram)
     (<[1%nat := 4%Z]> new_histogram) = 0%nat ->
   estimate (<[1%nat := 2%Z]> new_histogram) (<[1%nat := 4%Z]> new_histogram)
     = 0%R) /\
  (degreesOfFreedom (<[1%nat := 2%Z]> new_histogram)
     (<[1%nat := 4%Z]> new_histogram) <> 0%nat ->
   (0.0000000009
    <= estimate (<[1%nat := 2%Z]> new_histogram) (<[1%nat := 4%Z]> new_histogram)
    <= 0.0000000011)%R) /\
  classify (estimate (<[1%nat := 2%Z]> new_histogram)
              (<[1%nat := 4%Z]> new_histogram)) = Clean.
Proof.
  apply (balanced_is_clean (<[1%nat := 2%Z]> new_histogram)
           (<[1%nat := 4%Z]> new_histogram)).
  exact balanced_example.
Defined.

Lemma df_single (obs tot : histogram) (v : nat) :
  length obs = 255%nat -> (v < 255)%nat -> 0 < get tot v ->
  (forall i, i <> v -> get tot i = 0) ->
  degreesOfFreedom obs tot = 1%nat.
Proof.
  intros Hlen Hv Htv Htot. unfold degreesOfFreedom. rewrite Hlen.
  rewrite (filter_single _ v).
  - rewrite decide_True by lia. reflexivity.
  - intros i. split.
    + intros Hi. destruct (decide (i = v)) as [|Hne]; [assumption|].
      rewrite (Htot i Hne) in Hi. lia.
    + intros ->. exact Htv.
Qed.

Lemma chiSquared_single (obs tot : histogram) (v : nat) :
  (1 <= v <= 254)%nat -> 0 < get tot v ->
  (forall i, i <> v -> get tot i = 0) ->
  chiSquared_of obs tot = chi_term (get obs v) (get tot v).
Proof.
  intros Hv Htv Htot. rewrite chiSquared_of_sum, (Rsum_single _ v).
  - rewrite decide_True by lia. unfold term.
    destruct (Z.ltb_spec 0 (get tot v)); [reflexivity | lia].
  - intros i Hne. unfold term. rewrite (Htot i Hne). reflexivity.
Qed.

Lemma one_category_df (o n : Z) :
  0 < n ->
  degreesOfFreedom (<[1%nat := o]> new_histogram)
    (<[1%nat := n]> new_histogram) = 1%nat.
Proof.
  intros Hn. apply (df_single _ _ 1%nat).
  - rewrite length_insert. apply length_new_histogram.
  - lia.
  - rewrite get_insert_zeros by lia. rewrite decide_True by reflexivity.
    exact Hn.
  - intros i Hne. rewrite get_insert_zeros by lia.
    rewrite decide_False by exact Hne. reflexivity.
Defined.

Lemma one_category_chi (o n : Z) :
  0 < n ->
  chiSquared_of (<[1%nat := o]> new_histogram) (<[1%nat := n]> new_histogram)
  = chi_term o n.
Proof.
  intros Hn. rewrite (chiSquared_single _ _ 1%nat).
  - rewrite !get_insert_zeros by lia.
    rewrite !decide_True by reflexivity. reflexivity.
  - lia.
  - rewrite get_insert_zeros by lia. rewrite decide_True by reflexivity.
    exact Hn.
  - intros i Hne. rewrite get_insert_zeros by lia.
    rewrite decide_False by exact Hne. reflexivity.
Defined.

Lemma suspicious_from_four_witness :
  (0.95 < estimate (<[1%nat := 0%Z]> new_histogram)
            (<[1%nat := 8%Z]> new_histogram))%R /\
  classify (estimate (<[1%nat := 0%Z]> new_histogram)
              (<[1%nat := 8%Z]> new_histogram)) = Suspicious.
Proof.
  apply (suspicious_from_four (<[1%nat := 0]> new_histogram)
           (<[1%nat := 8]> new_histogram)).
  - rewrite one_category_df by lia. discriminate.
  - rewrite one_category_df, one_category_chi by lia.
    unfold chi_term. simpl INR. lra.
Defined.

Lemma clean_up_to_hundredth_witness :
  (estimate (<[1%nat := 2%Z]> new_histogram)
     (<[1%nat := 4%Z]> new_histogram) <= 0.10)%R /\
  classify (estimate (<[1%nat := 2%Z]> new_histogram)
              (<[1%nat := 4%Z]> new_histogram)) = Clean.
Proof.
  apply (clean_up_to_hundredth (<[1%nat := 2]> new_histogram)
           (<[1%nat := 4]> new_histogram)).
  - rewrite one_category_df by lia. discriminate.
  - rewrite one_category_df, one_category_chi by lia.
    unfold chi_term. simpl INR. lra.
Defined.

(** ** How large the probability can get *)

Lemma hist_order (pixelData : list Z) (c : nat) :
  0 <= get (observed_hist pixelData) c <= get (total_hist pixelData) c.
Proof.
  rewrite observed_hist_get, total_hist_get.
  pose proof (rising_le_pairs pixelData (Z.of_nat c) (pair_starts pixelData)).
  destruct (interior (Z.of_nat c)); lia.
Qed.

Lemma total_hist_sum (pixelData : list Z) :
  Zsum (map (get (total_hist pixelData)) (seq 1 254))
  = Z.of_nat (interior_pairs pixelData).
Proof.
  unfold interior_pairs. rewrite <- Zsum_pairs_at.
  f_equal. apply map_ext_in. intros c Hc.
  apply in_seq in Hc. rewrite total_hist_get.
  rewrite (proj2 (interior_spec (Z.of_nat c))) by lia. reflexivity.
Qed.

Open Scope R_scope.

Lemma chi_term_upper (o t : Z) :
  (0 <= o <= t)%Z -> (0 < t)%Z -> chi_term o t <= IZR t / 2.
Proof.
  intros [Ho Hot] Ht. unfold chi_term. cbv zeta.
  assert (0 < IZR t) as HtR by (apply IZR_lt; exact Ht).
  assert (0 <= IZR o) as HoR by (apply IZR_le; exact Ho).
  assert (IZR o <= IZR t) as HotR by (apply IZR_le; exact Hot).
  apply Rmult_le_reg_r with (IZR t / 2); [lra|].
  unfold Rdiv at 1. rewrite Rmult_assoc, Rinv_l by lra.
  nra.
Qed.

Lemma Rsum_IZR_half (f : nat -> Z) (l : list nat) :
  Rsum (map (fun i => IZR (f i) / 2) l) = IZR (Zsum (map f l)) / 2.
Proof.
  unfold Zsum. induction l as [|i l IH]; simpl.
  - lra.
  - rewrite IH, plus_IZR. lra.
Qed.

Lemma chiSquared_upper (pixelData : list Z) :
  chiSquared_of (observed_hist pixelData) (total_hist pixelData)
  <= INR (interior_pairs pixelData) / 2.
Proof.
  rewrite chiSquared_of_sum.
  rewrite INR_IZR_INZ, <- total_hist_sum, <- Rsum_IZR_half.
  apply Rsum_le. intros i. unfold term.
  pose proof (hist_order pixelData i) as Hord.
  destruct (Z.ltb_spec 0 (get (total_hist pixelData) i)) as [Hpos|Hnp].
  - apply chi_term_upper; [exact Hord | exact Hpos].
  - assert (get (total_hist pixelData) i = 0%Z) as -> by lia. lra.
Qed.

Lemma estimate_upper (pixelData : list Z) :
  estimate (observed_hist pixelData) (total_hist pixelData)
  <= erf (sqrt (INR (pairs_scanned pixelData) / 4)).
Proof.
  destruct (Nat.eq_dec
              (degreesOfFreedom (observed_hist pixelData)
                 (total_hist pixelData)) 0%nat) as [Hdf|Hdf].
  - rewrite estimate_no_pairs by exact Hdf.
    pose proof (erf_floor (sqrt (INR (pairs_scanned pixelData) / 4))
                  (sqrt_pos _)). lra.
  - rewrite estimate_erf by exact Hdf.
    apply erf_increasing; [apply sqrt_pos|].
    apply sqrt_le_1_alt.
    pose proof (chiSquared_upper pixelData) as Hup.
    pose proof (chiSquared_nonneg (observed_hist pixelData)
                  (total_hist pixelData)) as Hnn.
    assert (INR (interior_pairs pixelData) <= INR (pairs_scanned pixelData))
      as Hle by (apply le_INR, length_filter).
    assert (1 <= INR (degreesOfFreedom (observed_hist pixelData)
                        (total_hist pixelData))) as Hone.
    { change 1 with (INR 1). apply le_INR. lia. }
    assert (chiSquared_of (observed_hist pixelData) (total_hist pixelData)
            / INR (degreesOfFreedom (observed_hist pixelData)
                     (total_hist pixelData))
            <= chiSquared_of (observed_hist pixelData) (total_hist pixelData))
      as Hdiv.
    { apply Rmult_le_reg_r
        with (INR (degreesOfFreedom (observed_hist pixelData)
                     (total_hist pixelData))); [lra|].
      unfold Rdiv. rewrite Rmult_assoc, Rinv_l by lra. nra. }
    lra.
Qed.

Close Scope R_scope.

(** X11. No buffer scores higher than a one-valued buffer of its size: with
    [n] pairs scanned the probability is at most [erf (sqrt (n / 4))]. *)
Theorem probability_upper_bound (pixelData : list Z) :
  exists log probability,
    analyzeLSB pixelData [] = (log, Ok probability) /\
    (probability <= erf (sqrt (INR (pairs_scanned pixelData) / 4)))%R.
Proof.
  eexists. eexists. split; [apply analyzeLSB_run | apply estimate_upper].
Qed.

(** X12. A buffer of at most 60 bytes (15 pixels, 7 pairs) is never given
    the status Suspicious: its probability is at most 0.95. *)
Theorem small_never_suspicious (pixelData : list Z) :
  (length pixelData <= 60)%nat ->
  exists log probability,
    analyzeLSB pixelData [] = (log, Ok probability) /\
    (probability <= 0.95)%R /\ classify probability <> Suspicious.
Proof.
  intros Hlen. eexists. eexists. split; [apply analyzeLSB_run|].
  assert (estimate (observed_hist pixelData) (total_hist pixelData)
          <= 0.95)%R as Hp.
  { eapply Rle_trans; [apply estimate_upper|].
    assert (pairs_scanned pixelData <= 7)%nat as Hn.
    { rewrite pairs_scanned_div.
      apply Nat.lt_succ_r, Nat.Div0.div_lt_upper_bound. lia. }
    assert (0 <= INR (pairs_scanned pixelData) <= 7)%R as HnR.
    { split; [apply pos_INR|]. replace 7%R with (INR 7) by (simpl; lra). apply le_INR, Hn. }
    apply erf_at_most_095; [apply sqrt_pos|].
    rewrite sqrt_sqrt by lra. lra. }
  split; [exact Hp|].
  intros Hs. apply classify_spec in Hs. lra.
Qed.

Lemma small_never_suspicious_witness :
  exists log probability,
    analyzeLSB [100; 0; 0; 0; 200; 0; 0; 0] [] = (log, Ok probability) /\
    (probability <= 0.95)%R /\ classify probability <> Suspicious.
Proof.
  apply (small_never_suspicious [100; 0; 0; 0; 200; 0; 0; 0]).
  simpl. lia.
Defined.

(** X13. A buffer of more than 60 bytes (at least 8 pairs) whose first
    channel holds one value [v] with [0 < v < 255] is given the status
    Suspicious: its probability is above 0.95. *)
Theorem uniform_large_suspicious (pixelData : list Z) (v : Z) :
  0 < v < 255 -> uniform_channel pixelData v ->
  (61 <= length pixelData)%nat ->
  exists log probability,
    analyzeLSB pixelData [] = (log, Ok probability) /\
    (0.95 < probability)%R /\ classify probability = Suspicious.
Proof.
  intros Hv Hu Hlen. eexists. eexists. split; [apply analyzeLSB_run|].
  assert (8 <= pairs_scanned pixelData)%nat as Hn.
  { rewrite pairs_scanned_div.
    apply (Nat.div_le_lower_bound _ 8 8); lia. }
  pose proof (uniform_total_get pixelData v (Z.to_nat v) Hv Hu) as Htv.
  rewrite decide_True in Htv by reflexivity.
  assert (estimate (observed_hist pixelData) (total_hist pixelData)
          = erf (sqrt (INR (pairs_scanned pixelData) / 4))) as Hest.
  { rewrite (estimate_single _ _ (Z.to_nat v)
               (Z.of_nat (pairs_scanned pixelData))).
    - rewrite <- INR_IZR_INZ. reflexivity.
    - apply length_observed_hist.
    - lia.
    - lia.
    - intros i. apply (uniform_observed_get _ v), Hu.
    - exact Htv.
    - intros i Hne. rewrite (uniform_total_get _ v) by assumption.
      rewrite decide_False by exact Hne. reflexivity. }
  assert (8 <= INR (pairs_scanned pixelData))%R as HnR.
  { replace 8%R with (INR 8) by (simpl; lra). apply le_INR, Hn. }
  assert (0.95 < estimate (observed_hist pixelData)
                   (total_hist pixelData))%R as Hp.
  { rewrite Hest. apply erf_above_095; [apply sqrt_pos|].
    rewrite sqrt_sqrt by lra. lra. }
  split; [exact Hp | apply classify_spec; exact Hp].
Qed.

Lemma uniform_replicate (n : nat) (v : Z) : uniform_channel (replicate n v) v.
Proof.
  intros k Hk. rewrite length_replicate in Hk.
  apply lookup_replicate_2. exact Hk.
Defined.

Lemma uniform_large_suspicious_witness :
  exists log probability,
    analyzeLSB (replicate 64 100) [] = (log, Ok probability) /\
    (0.95 < probability)%R /\ classify probability = Suspicious.
Proof.
  apply (uniform_large_suspicious (replicate 64 100) 100).
  - lia.
  - apply uniform_replicate.
  - rewrite length_replicate. lia.
Defined.

(** ** Joining buffers *)

Lemma counts_run (pixelData : list Z) :
  counts pixelData (observed_hist pixelData) (total_hist pixelData).
Proof. eexists. apply pairCounter_run. Qed.

Lemma byte_at_app_l (b1 b2 : list Z) (i : Z) :
  0 <= i < Z.of_nat (length b1) -> byte_at (b1 ++ b2) i = byte_at b1 i.
Proof.
  intros Hi. unfold byte_at. rewrite lookup_app_l by lia. reflexivity.
Qed.

Lemma byte_at_app_r (b1 b2 : list Z) (j : Z) :
  0 <= j -> byte_at (b1 ++ b2) (Z.of_nat (length b1) + j) = byte_at b2 j.
Proof.
  intros Hj. unfold byte_at. rewrite lookup_app_r by lia.
  f_equal. f_equal. lia.
Qed.

Lemma map_seq_offset {A : Type} (g : nat -> A) (m n : nat) :
  forall a, map g (seq (m + a) n) = map (fun k => g (m + k)%nat) (seq a n).
Proof.
  induction n as [|n IH]; intros a; simpl; [reflexivity|].
  f_equal. rewrite <- IH. f_equal. f_equal. lia.
Qed.

Lemma pair_starts_app (b1 b2 : list Z) (m : nat) :
  length b1 = (8 * m)%nat ->
  pair_starts (b1 ++ b2) =
    pair_starts b1
    ++ map (fun j => Z.of_nat (length b1) + j) (pair_starts b2).
Proof.
  intros Hlen. rewrite !pair_starts_closed, length_app, Hlen.
  replace ((Z.of_nat (8 * m + length b2) + 3) / 8)
    with (Z.of_nat m + (Z.of_nat (length b2) + 3) / 8).
  - replace ((Z.of_nat (8 * m) + 3) / 8) with (Z.of_nat m).
    + assert (0 <= (Z.of_nat (length b2) + 3) / 8)
        by (apply Z.div_pos; lia).
      rewrite Z2Nat.inj_add, Nat2Z.id by lia.
      rewrite seq_app, map_app. f_equal.
      rewrite map_map. rewrite <- (Nat.add_0_r (0 + m)).
      rewrite map_seq_offset. apply map_ext. intros k. lia.
    + replace (Z.of_nat (8 * m) + 3) with (3 + Z.of_nat m * 8) by lia.
      rewrite Z.div_add by lia. reflexivity.
  - replace (Z.of_nat (8 * m + length b2) + 3)
      with (Z.of_nat (length b2) + 3 + Z.of_nat m * 8) by lia.
    rewrite Z.div_add by lia. lia.
Qed.

Lemma filter_transport {A B : Type} (P : B -> Prop) (Q : A -> Prop)
    `{forall b, Decision (P b)} `{forall a, Decision (Q a)}
    (f : A -> B) (l : list A) :
  (forall a, In a l -> (P (f a) <-> Q a)) ->
  length (filter P (map f l)) = length (filter Q l).
Proof.
  induction l as [|a l IH]; intros HPQ; [reflexivity|].
  simpl map. rewrite !filter_cons.
  assert (P (f a) <-> Q a) as Ha by (apply HPQ; left; reflexivity).
  assert (length (filter P (map f l)) = length (filter Q l)) as IH'
    by (apply IH; intros b Hb; apply HPQ; right; exact Hb).
  destruct (decide (P (f a))) as [Hp|Hp], (decide (Q a)) as [Hq|Hq];
    try tauto; simpl; rewrite IH'; reflexivity.
Qed.

Lemma pairs_at_app (b1 b2 : list Z) (m : nat) (c : Z) :
  length b1 = (8 * m)%nat ->
  pairs_at (b1 ++ b2) c (pair_starts (b1 ++ b2)) =
    (pairs_at b1 c (pair_starts b1) + pairs_at b2 c (pair_starts b2))%nat.
Proof.
  intros Hlen. rewrite (pair_starts_app b1 b2 m Hlen).
  unfold pairs_at. rewrite filter_app, length_app. f_equal.
  - rewrite <- (map_id (pair_starts b1)) at 1.
    apply filter_transport. intros j Hj.
    apply list_elem_of_In, pair_starts_bounds in Hj.
    unfold id. rewrite byte_at_app_l by lia. reflexivity.
  - apply filter_transport. intros j Hj.
    apply list_elem_of_In, pair_starts_bounds in Hj.
    rewrite byte_at_app_r by lia. reflexivity.
Qed.

Lemma rising_at_app (b1 b2 : list Z) (m : nat) (c : Z) :
  length b1 = (8 * m)%nat ->
  rising_at (b1 ++ b2) c (pair_starts (b1 ++ b2)) =
    (rising_at b1 c (pair_starts b1) + rising_at b2 c (pair_starts b2))%nat.
Proof.
  intros Hlen. rewrite (pair_starts_app b1 b2 m Hlen).
  unfold rising_at. rewrite filter_app, length_app. f_equal.
  - rewrite <- (map_id (pair_starts b1)) at 1.
    apply filter_transport. intros j Hj.
    apply list_elem_of_In, pair_starts_bounds in Hj.
    unfold id. rewrite !byte_at_app_l by lia. reflexivity.
  - apply filter_transport. intros j Hj.
    apply list_elem_of_In, pair_starts_bounds in Hj.
    rewrite byte_at_app_r by lia.
    replace (Z.of_nat (length b1) + j + 4)
      with (Z.of_nat (length b1) + (j + 4)) by lia.
    rewrite byte_at_app_r by lia. reflexivity.
Qed.

(** X14. When the first buffer holds a whole number of pairs (its length
    is a multiple of 8), the histograms of two buffers joined end to end
    are the entry-wise sums of the histograms of the two parts. *)
Theorem histograms_of_joined_buffers (b1 b2 : list Z) (m : nat) :
  length b1 = (8 * m)%nat ->
  exists obs1 tot1 obs2 tot2 obs tot,
    counts b1 obs1 tot1 /\ counts b2 obs2 tot2 /\
    counts (b1 ++ b2) obs tot /\
    forall c : nat,
      get obs c = get obs1 c + get obs2 c /\
      get tot c = get tot1 c + get tot2 c.
Proof.
  intros Hlen.
  exists (observed_hist b1), (total_hist b1).
  exists (observed_hist b2), (total_hist b2).
  exists (observed_hist (b1 ++ b2)), (total_hist (b1 ++ b2)).
  split; [apply counts_run|]. split; [apply counts_run|].
  split; [apply counts_run|].
  intros c. rewrite !observed_hist_get, !total_hist_get.
  rewrite (pairs_at_app b1 b2 m), (rising_at_app b1 b2 m) by exact Hlen.
  destruct (interior (Z.of_nat c)); lia.
Qed.

Lemma histograms_of_joined_buffers_witness :
  exists obs1 tot1 obs2 tot2 obs tot,
    counts [10; 0; 0; 0; 20; 0; 0; 0] obs1 tot1 /\
    counts [10; 0; 0; 0; 5; 0; 0; 0] obs2 tot2 /\
    counts ([10; 0; 0; 0; 20; 0; 0; 0] ++ [10; 0; 0; 0; 5; 0; 0; 0])
      obs tot /\
    forall c : nat,
      get obs c = get obs1 c + get obs2 c /\
      get tot c = get tot1 c + get tot2 c.
Proof.
  apply (histograms_of_joined_buffers _ _ 1). reflexivity.
Defined.

(** X15. After a whole number of pairs, up to four further bytes (one more
    pixel) change nothing: the run reads the same indices and returns the
    same probability, so the last pixel of an odd number of pixels is
    never read. *)
Theorem trailing_pixel_ignored (b1 b2 : list Z) (m : nat) (log : list Z) :
  length b1 = (8 * m)%nat -> (length b2 <= 4)%nat ->
  analyzeLSB (b1 ++ b2) log = analyzeLSB b1 log.
Proof.
  intros Hlen Hshort. rewrite !analyzeLSB_run.
  assert (pair_starts (b1 ++ b2) = pair_starts b1) as Hst.
  { rewrite (pair_starts_app b1 b2 m Hlen).
    rewrite (pair_starts_short b2 Hshort). apply app_nil_r. }
  assert (forall j, j ∈ pair_starts b1 ->
            byte_at (b1 ++ b2) j = byte_at b1 j /\
            byte_at (b1 ++ b2) (j + 4) = byte_at b1 (j + 4)) as Hbytes.
  { intros j Hj. apply pair_starts_bounds in Hj.
    split; apply byte_at_app_l; lia. }
  assert (observed_hist (b1 ++ b2) = observed_hist b1) as Hobs.
  { unfold observed_hist. rewrite Hst. apply fold_left_ext_in.
    intros h j Hj. destruct (Hbytes j Hj) as [Ha Hb].
    unfold observed_step. rewrite Ha, Hb. reflexivity. }
  assert (total_hist (b1 ++ b2) = total_hist b1) as Htot.
  { unfold total_hist. rewrite Hst. apply fold_left_ext_in.
    intros h j Hj. destruct (Hbytes j Hj) as [Ha _].
    unfold total_step. rewrite Ha. reflexivity. }
  unfold observed_reads, total_reads. rewrite Hst, Hobs, Htot. reflexivity.
Qed.

Lemma trailing_pixel_ignored_witness :
  analyzeLSB ([10; 0; 0; 0; 20; 0; 0; 0] ++ [99; 1; 2; 3]) [] =
  analyzeLSB [10; 0; 0; 0; 20; 0; 0; 0] [].
Proof.
  apply (trailing_pixel_ignored _ _ 1); [reflexivity | simpl; lia].
Defined.

(** ** The order of the pairs *)

Lemma pairs_at_kinds (pixelData : list Z) (c : Z) :
  pairs_at pixelData c (pair_starts pixelData) =
    length (filter (fun ab : Z * bool => fst ab = c) (pair_kinds pixelData)).
Proof.
  unfold pairs_at, pair_kinds. symmetry.
  apply filter_transport. intros j _. reflexivity.
Qed.

Lemma rising_at_kinds (pixelData : list Z) (c : Z) :
  rising_at pixelData c (pair_starts pixelData) =
    length (filter (fun ab : Z * bool => fst ab = c /\ snd ab = true)
                   (pair_kinds pixelData)).
Proof.
  unfold rising_at, pair_kinds. symmetry.
  apply filter_transport. intros j _. simpl.
  rewrite Z.ltb_lt. reflexivity.
Qed.

Lemma hist_ext (h1 h2 : histogram) :
  length h1 = 255%nat -> length h2 = 255%nat ->
  (forall c, get h1 c = get h2 c) -> h1 = h2.
Proof.
  intros H1 H2 Hget. apply list_eq. intros c.
  specialize (Hget c). unfold get in Hget.
  destruct (decide (c < 255)%nat) as [Hc|Hc].
  - destruct (lookup_lt_is_Some_2 h1 c) as [x Hx]; [lia|].
    destruct (lookup_lt_is_Some_2 h2 c) as [y Hy]; [lia|].
    rewrite Hx, Hy in *. simpl in Hget. congruence.
  - rewrite !lookup_ge_None_2 by lia. reflexivity.
Qed.

(** X16. The result depends only on how many pairs there are of each kind,
    a kind being the value of the first member together with whether the
    second member is greater: two buffers whose scanned pairs have the same
    kinds, in any order, give the same histograms and the same run of
    [analyzeLSB].  Neither the place of a pair in the image nor the exact
    value of its second member matters. *)
Theorem pair_order_ignored (buf1 buf2 : list Z) (log : list Z) :
  Permutation (pair_kinds buf1) (pair_kinds buf2) ->
  analyzeLSB buf1 log = analyzeLSB buf2 log.
Proof.
  intros Hperm. rewrite !analyzeLSB_run.
  assert (pair_starts buf1 = pair_starts buf2) as Hst.
  { apply Permutation_length in Hperm.
    unfold pair_kinds in Hperm. rewrite !length_map in Hperm.
    pose proof (pair_starts_closed buf1) as H1.
    pose proof (pair_starts_closed buf2) as H2.
    rewrite H1, H2 in Hperm. rewrite !length_map, !length_seq in Hperm.
    rewrite H1, H2, Hperm. reflexivity. }
  assert (observed_hist buf1 = observed_hist buf2) as Hobs.
  { apply hist_ext; try apply length_observed_hist.
    intros c. rewrite !observed_hist_get, !rising_at_kinds.
    rewrite Hperm. reflexivity. }
  assert (total_hist buf1 = total_hist buf2) as Htot.
  { apply hist_ext; try apply length_total_hist.
    intros c. rewrite !total_hist_get, !pairs_at_kinds.
    rewrite Hperm. reflexivity. }
  unfold observed_reads, total_reads. rewrite Hst, Hobs, Htot. reflexivity.
Qed.

Lemma pair_order_ignored_witness :
  analyzeLSB [10; 0; 0; 0; 20; 0; 0; 0; 30; 0; 0; 0; 5; 0; 0; 0] [] =
  analyzeLSB [30; 0; 0; 0; 0; 0; 0; 0; 10; 0; 0; 0; 200; 0; 0; 0] [].
Proof.
  apply pair_order_ignored.
  change (Permutation [(10, true); (30, false)] [(30, false); (10, true)]).
  apply perm_swap.
Defined.

(** ** The degrees of freedom *)

Lemma filter_count_le_Zsum (f : nat -> Z) (l : list nat) :
  (forall i, 0 <= f i) ->
  Z.of_nat (length (filter (fun i => 0 < f i) l)) <= Zsum (map f l).
Proof.
  intros Hf. unfold Zsum. induction l as [|i l IH]; [simpl; lia|].
  rewrite filter_cons. simpl map. simpl foldr.
  pose proof (Hf i).
  destruct (decide (0 < f i)); simpl length; lia.
Qed.

Lemma degreesOfFreedom_tail (pixelData : list Z) :
  degreesOfFreedom (observed_hist pixelData) (total_hist pixelData) =
    length (filter (fun i => 0 < get (total_hist pixelData) i) (seq 1 254)).
Proof.
  unfold degreesOfFreedom. rewrite length_observed_hist.
  change (seq 0 255) with (0%nat :: seq 1 254).
  rewrite filter_cons, decide_False; [reflexivity|].
  rewrite total_hist_get. simpl. lia.
Qed.

(** X17. For every buffer the degrees of freedom are at most 254 and at
    most the number of scanned pairs whose first member lies strictly
    between 0 and 255. *)
Theorem degrees_of_freedom_bound (pixelData : list Z) :
  exists obs tot,
    counts pixelData obs tot /\
    (degreesOfFreedom obs tot <= 254)%nat /\
    (degreesOfFreedom obs tot <= interior_pairs pixelData)%nat.
Proof.
  exists (observed_hist pixelData), (total_hist pixelData).
  split; [apply counts_run|].
  rewrite degreesOfFreedom_tail. split.
  - etransitivity; [apply length_filter|]. rewrite length_seq. reflexivity.
  - pose proof (filter_count_le_Zsum (get (total_hist pixelData))
                  (seq 1 254)) as Hle.
    rewrite total_hist_sum in Hle.
    assert (forall i, 0 <= get (total_hist pixelData) i) as Hnn.
    { intros i. pose proof (hist_order pixelData i). lia. }
    specialize (Hle Hnn). lia.
Qed.

(** ** Repeating a buffer *)

Open Scope R_scope.

Lemma chi_term_double (o t : Z) :
  (0 < t)%Z -> chi_term (2 * o) (2 * t) = 2 * chi_term o t.
Proof.
  intros Ht. unfold chi_term. rewrite !mult_IZR.
  assert (0 < IZR t) by (apply IZR_lt; exact Ht).
  field. lra.
Qed.

Lemma Rsum_double (f g : nat -> R) (l : list nat) :
  (forall i, g i = 2 * f i) -> Rsum (map g l) = 2 * Rsum (map f l).
Proof.
  intros Hfg. induction l as [|i l IH]; simpl; [ring|].
  rewrite Hfg, IH. ring.
Qed.

Lemma chiSquared_double (obs tot obs2 tot2 : histogram) :
  (forall c, get obs2 c = (2 * get obs c)%Z) ->
  (forall c, get tot2 c = (2 * get tot c)%Z) ->
  chiSquared_of obs2 tot2 = 2 * chiSquared_of obs tot.
Proof.
  intros Hobs Htot. rewrite !chiSquared_of_sum.
  apply Rsum_double. intros i. unfold term. rewrite Hobs, Htot.
  destruct (Z.ltb_spec 0 (get tot i)) as [Hpos|Hnp].
  - destruct (Z.ltb_spec 0 (2 * get tot i)); [|lia].
    apply chi_term_double. exact Hpos.
  - destruct (Z.ltb_spec 0 (2 * get tot i)); [lia | ring].
Qed.

Lemma degreesOfFreedom_double (obs tot obs2 tot2 : histogram) :
  length obs2 = length obs ->
  (forall c, get tot2 c = (2 * get tot c)%Z) ->
  degreesOfFreedom obs2 tot2 = degreesOfFreedom obs tot.
Proof.
  intros Hlen Htot. unfold degreesOfFreedom. rewrite Hlen.
  rewrite <- (map_id (seq 0 (length obs))) at 1.
  apply filter_transport. intros i _. unfold id. rewrite Htot. lia.
Qed.

Lemma estimate_double (obs tot obs2 tot2 : histogram) :
  length obs2 = length obs ->
  (forall c, get obs2 c = (2 * get obs c)%Z) ->
  (forall c, get tot2 c = (2 * get tot c)%Z) ->
  estimate obs tot <= estimate obs2 tot2.
Proof.
  intros Hlen Hobs Htot. unfold estimate.
  rewrite (degreesOfFreedom_double obs tot obs2 tot2 Hlen Htot).
  rewrite (chiSquared_double obs tot obs2 tot2 Hobs Htot).
  destruct (Nat.eqb_spec (degreesOfFreedom obs tot) 0) as [|Hne]; [lra|].
  apply chiSquareCdf_increasing.
  pose proof (normalizedChi_nonneg obs tot) as Hn.
  unfold Rdiv in *. rewrite Rmult_assoc. lra.
Qed.

Close Scope R_scope.

(** X18. Repeating a buffer that holds a whole number of pairs doubles
    every histogram entry (and with it the chi-square statistic, at the same
    degrees of freedom), and so never lowers the probability. *)
Theorem repeating_never_lowers (pixelData : list Z) (m : nat) :
  length pixelData = (8 * m)%nat ->
  exists obs1 tot1 log1 p1 obs2 tot2 log2 p2,
    counts pixelData obs1 tot1 /\
    analyzeLSB pixelData [] = (log1, Ok p1) /\
    counts (pixelData ++ pixelData) obs2 tot2 /\
    analyzeLSB (pixelData ++ pixelData) [] = (log2, Ok p2) /\
    (forall c : nat,
       get obs2 c = 2 * get obs1 c /\ get tot2 c = 2 * get tot1 c) /\
    (p1 <= p2)%R.
Proof.
  intros Hlen.
  assert (forall c : nat,
            get (observed_hist (pixelData ++ pixelData)) c
            = 2 * get (observed_hist pixelData) c) as Hobs.
  { intros c. rewrite !observed_hist_get.
    rewrite (rising_at_app _ _ m _ Hlen).
    destruct (interior (Z.of_nat c)); lia. }
  assert (forall c : nat,
            get (total_hist (pixelData ++ pixelData)) c
            = 2 * get (total_hist pixelData) c) as Htot.
  { intros c. rewrite !total_hist_get.
    rewrite (pairs_at_app _ _ m _ Hlen).
    destruct (interior (Z.of_nat c)); lia. }
  exists (observed_hist pixelData), (total_hist pixelData).
  eexists. eexists.
  exists (observed_hist (pixelData ++ pixelData)).
  exists (total_hist (pixelData ++ pixelData)).
  eexists. eexists.
  split; [apply counts_run|]. split; [apply analyzeLSB_run|].
  split; [apply counts_run|]. split; [apply analyzeLSB_run|].
  split.
  - intros c. split; [apply Hobs | apply Htot].
  - apply estimate_double; try assumption.
    rewrite !length_observed_hist. reflexivity.
Qed.

Lemma repeating_never_lowers_witness :
  exists obs1 tot1 log1 p1 obs2 tot2 log2 p2,
    counts [10; 0; 0; 0; 20; 0; 0; 0] obs1 tot1 /\
    analyzeLSB [10; 0; 0; 0; 20; 0; 0; 0] [] = (log1, Ok p1) /\
    counts ([10; 0; 0; 0; 20; 0; 0; 0] ++ [10; 0; 0; 0; 20; 0; 0; 0])
      obs2 tot2 /\
    analyzeLSB ([10; 0; 0; 0; 20; 0; 0; 0] ++ [10; 0; 0; 0; 20; 0; 0; 0]) []
      = (log2, Ok p2) /\
    (forall c : nat,
       get obs2 c = 2 * get obs1 c /\ get tot2 c = 2 * get tot1 c) /\
    (p1 <= p2)%R.
Proof.
  apply (repeating_never_lowers [10; 0; 0; 0; 20; 0; 0; 0] 1). reflexivity.
Defined.

(** ** The handlers of the page *)

Lemma verdict_status (p : R) : snd (verdict p) = classify p.
Proof.
  unfold verdict, classify.
  destruct (Rlt_dec 0.95 p); [reflexivity|].
  destruct (Rlt_dec 0.10 p); reflexivity.
Qed.

(** X19. A file whose type does not start with [image/] is refused: the
    error message is set, the selected file, the preview and the previous
    result are cleared, and a click on the analyze button then changes
    nothing. *)
Theorem refused_file_blocks_analysis (f : File) (st : AppState) :
  String.prefix "image/" (type f) = false ->
  selectedFile (handleFileChange (Some f) st) = None /\
  imagePreview (handleFileChange (Some f) st) = None /\
  result (handleFileChange (Some f) st) = None /\
  error (handleFileChange (Some f) st) <> None /\
  handleAnalyzeClick (handleFileChange (Some f) st)
  = handleFileChange (Some f) st.
Proof.
  intros Hty. unfold handleFileChange. rewrite Hty. simpl.
  repeat split; try reflexivity. discriminate.
Qed.

Lemma refused_file_blocks_analysis_witness :
  selectedFile (handleFileChange (Some text_file) idle_state) = None /\
  imagePreview (handleFileChange (Some text_file) idle_state) = None /\
  result (handleFileChange (Some text_file) idle_state) = None /\
  error (handleFileChange (Some text_file) idle_state) <> None /\
  handleAnalyzeClick (handleFileChange (Some text_file) idle_state)
  = handleFileChange (Some text_file) idle_state.
Proof.
  apply (refused_file_blocks_analysis text_file idle_state). reflexivity.
Defined.

(** X20. When the image has loaded, every path of the handler ends with
    [isLoading] false.  With a canvas, a context and pixel data the handler
    always sets a result, never the analysis error: its probability is the
    one [analyzeLSB] returns for the data, lies in [0,1], and its status
    is the classifier's.  Without one of the three the previous result is
    kept and an error message is set. *)
Theorem image_loaded_outcome (canvas context : bool)
    (imageData : option (list Z)) (st : AppState) :
  isLoading (imageLoaded canvas context imageData st) = false /\
  (forall pixelData,
     canvas = true -> context = true -> imageData = Some pixelData ->
     exists r log,
       result (imageLoaded canvas context imageData st) = Some r /\
       error (imageLoaded canvas context imageData st) = error st /\
       analyzeLSB pixelData [] = (log, Ok (probability r)) /\
       (0 <= probability r <= 1)%R /\
       status r = classify (probability r)) /\
  (canvas = false \/ context = false \/ imageData = None ->
   result (imageLoaded canvas context imageData st) = result st /\
   error (imageLoaded canvas context imageData st) <> None).
Proof.
  unfold imageLoaded.
  destruct canvas; simpl; [|split; [reflexivity|split]].
  - destruct context; simpl; [|split; [reflexivity|split]].
    + destruct imageData as [pixelData|]; [|split; [reflexivity|split]].
      * rewrite analyzeLSB_run. simpl. split; [reflexivity|split].
        -- intros pd _ _ Hpd. injection Hpd as <-.
           eexists. eexists. split; [reflexivity|].
           split; [reflexivity|]. simpl.
           split; [apply analyzeLSB_run|].
           split; [apply estimate_range | apply verdict_status].
        -- intros [H|[H|H]]; discriminate.
      * intros pd _ _ Hpd. discriminate.
      * intros _. split; [reflexivity | discriminate].
    + intros pd _ H. discriminate.
    + intros _. split; [reflexivity | discriminate].
  - intros pd H. discriminate.
  - intros _. split; [reflexivity | discriminate].
Qed.

(** ** Rounding and the order of two results *)

(** [erf] at 0 on doubles: [Math.exp(-0)] is 1 and the rounded sum of
    the coefficients leaves 9.9999997e-10, for a buffer in balance too. *)
Example erf_f64_zero :
  erf_f64 0%float = 9.9999997171806854e-10%float /\
  snd (analyzeLSB_f64 (pixel_pairs 1 10 11 ++ pixel_pairs 1 10 10) [])
  = Ok 9.9999997171806854e-10%float.
Proof. split; vm_compute; reflexivity. Qed.

